(** * GatePoint interaction gateway: verification and dispatch core

    A shallow embedding of [gatepoint/gateway.py]: the [on] decorator of
    [GatewayClient], the startup hook and the [POST /interaction] endpoint
    defined inside [GatewayClient.run], together with the Python builtins
    the endpoint relies on ([bytes.decode], [str.encode], [bytes.fromhex],
    truthiness, subscripting, [tuple.__add__], [list.append]).

    Conventions.
    - A Python [bytes] object is a [list byte].
    - A Python [str] whose encoding matters (the request body, the signed
      message) is a list of Unicode code points ([list Z]).  Header values
      are decoded by the server as latin-1, so a header value is a Coq
      [string]: one 8-bit character per code point.
    - Objects decoded from JSON are values of [Py.value]; a dict is an
      association list in key order.  A JSON number is an integer or a
      float; a float is [NaN], an infinity or the rational it denotes, and
      is compared with integers by value, as Python does.
    - The endpoint is written in an error-and-trace monad: a run yields the
      list of observable effects it performed and either the value it
      returned or the exception it raised.
    - The registries are [gmap string _], as the instance dictionaries are
      keyed by strings. *)

From Stdlib Require Import ZArith QArith Lia List.
From Stdlib Require Import Strings.Byte.
From stdpp Require Import base option list gmap strings.

Local Open Scope Z_scope.
Set Warnings "-register-all".

(** ** Bytes, UTF-8 and hexadecimal *)

Module Codec.

Definition byte_val (b : byte) : Z := Z.of_N (Byte.to_N b).

Definition byte_of_Z (z : Z) : byte :=
  match Byte.of_N (Z.to_N z) with
  | Some b => b
  | None => x00
  end.

Definition is_cont (x : Z) : bool := (0x80 <=? x) && (x <=? 0xBF).

(** [bytes.decode("utf-8")] with the default strict error handler: [None]
    stands for [UnicodeDecodeError].  Overlong forms, surrogates, code
    points above U+10FFFF, stray continuation bytes and truncated
    sequences are all rejected. *)
Fixpoint utf8_decode (bs : list byte) : option (list Z) :=
  match bs with
  | [] => Some []
  | b1 :: r1 =>
    let x1 := byte_val b1 in
    if x1 <? 0x80 then cons x1 <$> utf8_decode r1
    else if x1 <? 0xC2 then None
    else if x1 <? 0xE0 then
      match r1 with
      | b2 :: r2 =>
        let x2 := byte_val b2 in
        if is_cont x2
        then cons ((x1 - 0xC0) * 64 + (x2 - 0x80)) <$> utf8_decode r2
        else None
      | _ => None
      end
    else if x1 <? 0xF0 then
      match r1 with
      | b2 :: b3 :: r3 =>
        let x2 := byte_val b2 in
        let x3 := byte_val b3 in
        let lo := if x1 =? 0xE0 then 0xA0 else 0x80 in
        let hi := if x1 =? 0xED then 0x9F else 0xBF in
        if (lo <=? x2) && (x2 <=? hi) && is_cont x3
        then cons ((x1 - 0xE0) * 4096 + (x2 - 0x80) * 64 + (x3 - 0x80))
               <$> utf8_decode r3
        else None
      | _ => None
      end
    else if x1 <? 0xF5 then
      match r1 with
      | b2 :: b3 :: b4 :: r4 =>
        let x2 := byte_val b2 in
        let x3 := byte_val b3 in
        let x4 := byte_val b4 in
        let lo := if x1 =? 0xF0 then 0x90 else 0x80 in
        let hi := if x1 =? 0xF4 then 0x8F else 0xBF in
        if (lo <=? x2) && (x2 <=? hi) && is_cont x3 && is_cont x4
        then cons ((x1 - 0xF0) * 262144 + (x2 - 0x80) * 4096
                   + (x3 - 0x80) * 64 + (x4 - 0x80))
               <$> utf8_decode r4
        else None
      | _ => None
      end
    else None
  end.

(** One code point of [str.encode()] (UTF-8, strict): [None] stands for
    [UnicodeEncodeError], raised for surrogates. *)
Definition utf8_encode_cp (c : Z) : option (list byte) :=
  if c <? 0 then None
  else if c <? 0x80 then Some [byte_of_Z c]
  else if c <? 0x800 then
    Some [byte_of_Z (0xC0 + c / 64); byte_of_Z (0x80 + c mod 64)]
  else if c <? 0x10000 then
    if (0xD800 <=? c) && (c <=? 0xDFFF) then None
    else Some [byte_of_Z (0xE0 + c / 4096);
               byte_of_Z (0x80 + (c / 64) mod 64);
               byte_of_Z (0x80 + c mod 64)]
  else if c <? 0x110000 then
    Some [byte_of_Z (0xF0 + c / 262144);
          byte_of_Z (0x80 + (c / 4096) mod 64);
          byte_of_Z (0x80 + (c / 64) mod 64);
          byte_of_Z (0x80 + c mod 64)]
  else None.

Fixpoint utf8_encode (s : list Z) : option (list byte) :=
  match s with
  | [] => Some []
  | c :: s' =>
    match utf8_encode_cp c, utf8_encode s' with
    | Some bs, Some bs' => Some (bs ++ bs')
    | _, _ => None
    end
  end.

(** A header value seen as a Python [str]: its code points. *)
Definition str_of_header (s : string) : list Z :=
  (fun a => Z.of_N (Ascii.N_of_ascii a)) <$> String.list_ascii_of_string s.

(** The bytes of an ASCII literal. *)
Definition bytes_of_string (s : string) : list byte :=
  String.list_byte_of_string s.

Definition hex_digit (a : Ascii.ascii) : option Z :=
  let n := Z.of_N (Ascii.N_of_ascii a) in
  if (48 <=? n) && (n <=? 57) then Some (n - 48)
  else if (97 <=? n) && (n <=? 102) then Some (n - 87)
  else if (65 <=? n) && (n <=? 70) then Some (n - 55)
  else None.

(** ASCII whitespace, as skipped by [bytes.fromhex]. *)
Definition is_space (a : Ascii.ascii) : bool :=
  let n := Z.of_N (Ascii.N_of_ascii a) in
  (n =? 32) || ((9 <=? n) && (n <=? 13)).

(** [bytes.fromhex]: two hexadecimal digits per byte, ASCII whitespace
    between bytes ignored; [None] stands for [ValueError]. *)
Fixpoint fromhex (s : string) : option (list byte) :=
  match s with
  | EmptyString => Some []
  | String a r =>
    if is_space a then fromhex r
    else
      match hex_digit a, r with
      | Some h, String a' r' =>
        match hex_digit a' with
        | Some l => cons (byte_of_Z (16 * h + l)) <$> fromhex r'
        | None => None
        end
      | _, _ => None
      end
  end.

(** [str.lower] on ASCII letters (header names are matched lower-cased). *)
Definition lower_ascii (a : Ascii.ascii) : Ascii.ascii :=
  let n := Ascii.N_of_ascii a in
  if ((65 <=? n) && (n <=? 90))%N then Ascii.ascii_of_N (n + 32) else a.

Fixpoint lower (s : string) : string :=
  match s with
  | EmptyString => EmptyString
  | String a r => String (lower_ascii a) (lower r)
  end.

End Codec.

(** ** Python values, exceptions and builtins *)

Module Py.

Inductive exn : Type :=
| HTTPException (status_code : Z) (detail : string)
| BadSignatureError
| UnicodeDecodeError
| UnicodeEncodeError
| JSONDecodeError
| ValueError
| KeyError
| IndexError
| TypeError
| AttributeError
| OtherError (name : string).

(** A Python [float]: [NaN], an infinity, or a finite value, given as the
    rational number it denotes. *)
Inductive pyfloat : Type :=
| FNaN
| FInf (negative : bool)
| FFinite (q : Q).

(** Text fields are Coq strings, one character per code unit. *)
Inductive value : Type :=
| VNone
| VBool (b : bool)
| VInt (z : Z)
| VStr (s : string)
| VList (l : list value)
| VTuple (l : list value)
| VDict (d : list (string * value))
| VInteraction (payload : value)
| VException (e : exn)
| VFloat (f : pyfloat).

(** The numbers that take part in comparisons. *)
Inductive number : Type :=
| NInt (z : Z)
| NFloat (f : pyfloat).

(** What a call or an expression yields: a value, or a raised exception. *)
Inductive outcome (A : Type) : Type :=
| Returned (a : A)
| Raised (e : exn).
Arguments Returned {A} a.
Arguments Raised {A} e.

#[export] Instance outcome_ret : MRet outcome := fun A a => Returned a.
#[export] Instance outcome_bind : MBind outcome := fun A B f m =>
  match m with
  | Returned a => f a
  | Raised e => Raised e
  end.

Definition of_option {A : Type} (e : exn) (o : option A) : outcome A :=
  match o with
  | Some a => Returned a
  | None => Raised e
  end.

(** [bool(v)] *)
Definition truthy (v : value) : bool :=
  match v with
  | VNone => false
  | VBool b => b
  | VInt z => negb (z =? 0)
  | VStr s => negb (String.eqb s "")
  | VList l | VTuple l => negb (bool_decide (length l = 0%nat))
  | VDict d => negb (bool_decide (length d = 0%nat))
  | VInteraction _ | VException _ => true
  | VFloat (FFinite q) => negb (Qeq_bool q (inject_Z 0))
  | VFloat _ => true
  end.

(** [bool(s)] for a header value returned by [headers.get]. *)
Definition truthy_header (h : option string) : bool :=
  match h with
  | Some s => negb (String.eqb s "")
  | None => false
  end.

Fixpoint dict_lookup (k : string) (d : list (string * value)) : option value :=
  match d with
  | [] => None
  | (k', v) :: d' => if String.eqb k k' then Some v else dict_lookup k d'
  end.

(** [v[k]] for a string key [k]. *)
Definition getitem (v : value) (k : string) : outcome value :=
  match v with
  | VDict d => of_option KeyError (dict_lookup k d)
  | _ => Raised TypeError
  end.

(** [v.get(k)] *)
Definition get (v : value) (k : string) : outcome value :=
  match v with
  | VDict d => Returned (default VNone (dict_lookup k d))
  | _ => Raised AttributeError
  end.

(** [v[0]] *)
Definition getitem0 (v : value) : outcome value :=
  match v with
  | VList l | VTuple l => of_option IndexError (head l)
  | VStr (String a _) => Returned (VStr (String a EmptyString))
  | VStr EmptyString => Raised IndexError
  | VDict _ => Raised KeyError
  | _ => Raised TypeError
  end.

(** [iter(v)], fully unrolled. *)
Definition iterate (v : value) : outcome (list value) :=
  match v with
  | VList l | VTuple l => Returned l
  | VDict d => Returned ((fun kv => VStr (fst kv)) <$> d)
  | VStr s =>
    Returned ((fun a => VStr (String a EmptyString))
                <$> String.list_ascii_of_string s)
  | _ => Raised TypeError
  end.

(** The number a value stands for in a comparison: [bool] is a subtype of
    [int]; anything that is not a number has none. *)
Definition number_of (v : value) : option number :=
  match v with
  | VInt z => Some (NInt z)
  | VBool b => Some (NInt (if b then 1 else 0))
  | VFloat f => Some (NFloat f)
  | _ => None
  end.

(** Comparisons of a float with an integer literal, by value; every
    comparison with [NaN] is false. *)
Definition float_eq (f : pyfloat) (n : Z) : bool :=
  match f with
  | FFinite q => Qeq_bool q (inject_Z n)
  | _ => false
  end.

Definition float_ge (f : pyfloat) (n : Z) : bool :=
  match f with
  | FNaN => false
  | FInf negative => negb negative
  | FFinite q => Qle_bool (inject_Z n) q
  end.

Definition float_lt (f : pyfloat) (n : Z) : bool :=
  match f with
  | FNaN => false
  | FInf negative => negative
  | FFinite q => negb (Qle_bool (inject_Z n) q)
  end.

(** [v == n] for an integer literal [n]; [True == 1] and [1.0 == 1] hold
    in Python. *)
Definition eq_int (v : value) (n : Z) : bool :=
  match number_of v with
  | Some (NInt z) => z =? n
  | Some (NFloat f) => float_eq f n
  | None => false
  end.

(** [v >= n] and [v < n] for an integer literal [n]. *)
Definition ge_int (v : value) (n : Z) : outcome bool :=
  match number_of v with
  | Some (NInt z) => Returned (n <=? z)
  | Some (NFloat f) => Returned (float_ge f n)
  | None => Raised TypeError
  end.

Definition lt_int (v : value) (n : Z) : outcome bool :=
  match number_of v with
  | Some (NInt z) => Returned (z <? n)
  | Some (NFloat f) => Returned (float_lt f n)
  | None => Raised TypeError
  end.

(** [v in (n1, ..., nk)] for a tuple of integer literals. *)
Definition in_ints (v : value) (ns : list Z) : bool :=
  existsb (eq_int v) ns.

Fixpoint hashable (v : value) : bool :=
  match v with
  | VList _ | VDict _ => false
  | VTuple l => forallb hashable l
  | _ => true
  end.

(** [v in d] for a dict [d] keyed by strings. *)
Definition contains {A : Type} (d : gmap string A) (v : value) : outcome bool :=
  match v with
  | VStr s => Returned (bool_decide (is_Some (d !! s)))
  | _ => if hashable v then Returned false else Raised TypeError
  end.

(** [d[v]] for a dict [d] keyed by strings. *)
Definition lookup_registry {A : Type} (d : gmap string A) (v : value)
  : outcome A :=
  match v with
  | VStr s => of_option KeyError (d !! s)
  | _ => if hashable v then Raised KeyError else Raised TypeError
  end.

(** [t.__add__(other)] for a tuple [t]: concatenation with another tuple,
    [TypeError] for any other operand. *)
Definition tuple___add__ (t : list value) (other : value)
  : outcome (list value) :=
  match other with
  | VTuple l => Returned (t ++ l)
  | _ => Raised TypeError
  end.

(** [l.append(x)]: the list object is extended in place and the call
    itself evaluates to [None].  The first component is the list after the
    call, the second the value of the call expression. *)
Definition list_append {A : Type} (l : list A) (x : A) : list A * value :=
  (l ++ [x], VNone).

(** Error-and-trace monad over an effect alphabet [E]. *)
Definition M (E A : Type) : Type := (list E * outcome A)%type.

Definition raise {E A : Type} (e : exn) : M E A := ([], Raised e).

Definition emit {E : Type} (e : E) : M E unit := ([e], Returned tt).

Definition lift {E A : Type} (o : outcome A) : M E A := ([], o).

Definition trace {E A : Type} (m : M E A) : list E := fst m.

Definition result {E A : Type} (m : M E A) : outcome A := snd m.

#[export] Instance M_ret {E : Type} : MRet (M E) :=
  fun A a => ([], Returned a).
#[export] Instance M_bind {E : Type} : MBind (M E) := fun A B f m =>
  match snd m with
  | Returned a => (fst m ++ fst (f a), snd (f a))
  | Raised e => (fst m, Raised e)
  end.

End Py.

Import Py.

(** ** The gateway client and its endpoint *)

Module Gateway.

(** The third-party signing library ([nacl.signing]): constructing a
    [VerifyKey] from raw bytes ([None]: the constructor raises) and
    [VerifyKey.verify(smessage, signature)], which returns the message or
    raises [BadSignatureError] (a forged signature) or something else (a
    signature of the wrong size). *)
Class Signing := {
  VerifyKey : list byte -> option (list byte);
  verify : list byte -> list byte -> list byte -> outcome (list byte)
}.

(** An incoming request: header pairs in wire order and the raw body. *)
Record Request := {
  headers : list (string * string);
  body : list byte
}.

(** [request.headers.get(key)]: names are matched case-insensitively and
    the first occurrence wins. *)
Definition headers_get (request : Request) (key : string) : option string :=
  snd <$> find (fun kv => String.eqb (Codec.lower (fst kv)) (Codec.lower key))
               (headers request).

(** Modelled from the spec: the class [Interaction] of the module
    [gatepoint.interaction] (the "Interaction Facade") wraps the raw
    payload of the request and is handed to handlers as first argument. *)
Definition Interaction (interaction_payload : value) : value :=
  VInteraction interaction_payload.

Section Client.

(** User callables registered as handlers. *)
Context {Handler : Type}.

(** A slot of [self.events]: a list of handlers, or [None]. *)
Inductive slot : Type :=
| SList (l : list Handler)
| SNone.

(** The fields of [GatewayClient] the dispatch core reads or writes. *)
Record GatewayClient := {
  public_key : string;
  buttons : gmap string Handler;
  commands : gmap string Handler;
  events : gmap string slot;
  menus : gmap string Handler
}.

Definition set_events (self : GatewayClient) (ev : gmap string slot)
  : GatewayClient :=
  {| public_key := public_key self;
     buttons := buttons self;
     commands := commands self;
     events := ev;
     menus := menus self |}.

(** [self.events.get(event)] *)
Definition events_get (self : GatewayClient) (event : string) : slot :=
  default SNone (events self !! event).

(** [self.events.get(event) or []] *)
Definition events_or_empty (self : GatewayClient) (event : string)
  : list Handler :=
  match events_get self event with
  | SList l => l
  | SNone => []
  end.

(** [GatewayClient.on(event)(func)] (lines 198-202):
<<
    event_list = self.events.get(event).append(func) if self.events.get(event) else [func]
    self.events[event] = event_list
>>
    When the slot holds a non-empty list, [append] extends that stored
    list in place ([mutated]) and [event_list] is the value of the call
    expression, which for [list.append] is always [None]; the assignment
    then overwrites the slot with it. *)
Definition on (event : string) (func : Handler) (self : GatewayClient)
  : GatewayClient :=
  match events_get self event with
  | SList (h :: t) =>
    let '(l', r) := list_append (h :: t) func in
    let mutated := <[event := SList l']> (events self) in
    let event_list := match r with VNone => SNone | _ => SList l' end in
    set_events self (<[event := event_list]> mutated)
  | SList [] | SNone =>
    let event_list := SList [func] in
    set_events self (<[event := event_list]> (events self))
  end.

(** Registering a sequence of handlers for one event, first to last. *)
Definition on_all (event : string) (funcs : list Handler)
    (self : GatewayClient) : GatewayClient :=
  foldl (fun c f => on event f c) self funcs.

(** The call sites of user handlers inside the endpoint. *)
Inductive call_site : Type :=
| Lifecycle (event : string)
| CommandHandler
| MenuHandler
| ButtonHandler.

(** Observable effects of a run, in program order. *)
Inductive effect : Type :=
| EOutput (line : string)
| EBody
| EVerify (key message signature : list byte)
| EJson
| EPrintEvents (ev : gmap string slot)
| EPrint (v : value)
| ECall (site : call_site) (h : Handler) (args : list value).

(** What awaiting a handler call yields. *)
Variable invoke : Handler -> list value -> outcome value.

Context `{Signing}.

(** [json.loads] on the raw body; [None] stands for a decoding error. *)
Variable json_loads : list byte -> option value.

(** Awaiting the call of [h] on the argument list [args] at call site
    [site]. *)
Definition call (site : call_site) (h : Handler) (args : list value)
  : M effect value :=
  ([ECall site h args], invoke h args).

(** [for event in hs: await event(...)], every handler on [args]. *)
Fixpoint fire (event : string) (hs : list Handler) (args : list value)
  : M effect unit :=
  match hs with
  | [] => mret tt
  | h :: rest => _ ← call (Lifecycle event) h args; fire event rest args
  end.

(** [startup_event] (lines 218-222). *)
Definition startup_event (self : GatewayClient) : M effect unit :=
  _ ← emit (EOutput
        "INFO: GatePoint API Dispatched, listening for interactions.");
  fire "startup" (events_or_empty self "startup") [].

(** [{"type": 4, "data": {"content": content, "flags": 64}}] *)
Definition default_response (content : string) : value :=
  VDict [("type"%string, VInt 4);
         ("data"%string,
          VDict [("content"%string, VStr content);
                 ("flags"%string, VInt 64)])].

(** The loop of lines 272-273:
<<
    for option in interaction_payload["data"]["options"]:
        input_tuple = input_tuple.__add__((option["value"]))
>> *)
Fixpoint collect_options (input_tuple : list value) (options : list value)
  : outcome (list value) :=
  match options with
  | [] => Returned input_tuple
  | option :: rest =>
    v ← getitem option "value";
    input_tuple ← tuple___add__ input_tuple v;
    collect_options input_tuple rest
  end.

(** [interaction_payload["data"][k]] *)
Definition data_field (interaction_payload : value) (k : string)
  : outcome value :=
  data ← getitem interaction_payload "data"; getitem data k.

(** Line 291:
<<
    value = interaction_payload["data"]["values"][0] if interaction_payload["data"]["values"] else None
>> *)
Definition select_value (interaction_payload : value) : outcome value :=
  c ← data_field interaction_payload "values";
  if truthy c
  then vs ← data_field interaction_payload "values"; getitem0 vs
  else Returned VNone.

(** The verification phase of the endpoint (lines 231-249).  The result
    [None] means that control reaches line 252; [Some v] means that the
    endpoint executes [return v] inside the [except] clause. *)
Definition verify_request (self : GatewayClient) (request : Request)
  : M effect (option value) :=
  key_bytes ← lift (of_option ValueError (Codec.fromhex (public_key self)));
  verify_key ← lift (of_option ValueError (VerifyKey key_bytes));
  let signature := headers_get request "X-Signature-Ed25519" in
  let timestamp := headers_get request "X-Signature-Timestamp" in
  match signature, timestamp with
  | Some signature, Some timestamp =>
    if negb (truthy_header (Some signature))
       || negb (truthy_header (Some timestamp))
    then raise (HTTPException 401 "missing request signature")
    else
      _ ← emit EBody;
      body ← lift (of_option UnicodeDecodeError
                     (Codec.utf8_decode (body request)));
      message ← lift (of_option UnicodeEncodeError
                        (Codec.utf8_encode
                           (Codec.str_of_header timestamp ++ body)));
      signature ← lift (of_option ValueError (Codec.fromhex signature));
      _ ← emit (EVerify verify_key message signature);
      match verify verify_key message signature with
      | Returned _ => mret None
      | Raised BadSignatureError =>
        mret (Some (VException
                      (HTTPException 401 "invalid request signature")))
      | Raised e => raise e
      end
  | _, _ => raise (HTTPException 401 "missing request signature")
  end.

(** The dispatch phase of the endpoint (lines 254-340). *)
Definition process_request (self : GatewayClient) (interaction_payload : value)
  : M effect value :=
  t ← lift (getitem interaction_payload "type");
  if eq_int t 1 then mret (VDict [("type"%string, VInt 1)])
  else
  t ← lift (getitem interaction_payload "type");
  if eq_int t 2 then
    name ← lift (data_field interaction_payload "name");
    registered ← lift (contains (commands self) name);
    if registered : bool then
      _ ← emit (EPrintEvents (events self));
      _ ← fire "interaction_receive"
            (events_or_empty self "interaction_receive")
            [Interaction interaction_payload];
      _ ← fire "command_receive"
            (events_or_empty self "command_receive")
            [Interaction interaction_payload];
      data ← lift (get interaction_payload "data");
      options ← lift (get data "options");
      if truthy options then
        options ← lift (data_field interaction_payload "options");
        options ← lift (iterate options);
        input_tuple ← lift (collect_options [] options);
        name ← lift (data_field interaction_payload "name");
        handler ← lift (lookup_registry (commands self) name);
        call CommandHandler handler
             (Interaction interaction_payload :: input_tuple)
      else
        name ← lift (data_field interaction_payload "name");
        handler ← lift (lookup_registry (commands self) name);
        call CommandHandler handler [Interaction interaction_payload]
    else
      mret (default_response
              "This command is not registered with Interaction Gateway API.")
  else
  t ← lift (getitem interaction_payload "type");
  if eq_int t 3 then
    data ← lift (getitem interaction_payload "data");
    _ ← emit (EPrint data);
    component_type ← lift (data_field interaction_payload "component_type");
    if in_ints component_type [3; 4; 5; 6; 7; 8] then
      value ← lift (select_value interaction_payload);
      custom_id ← lift (data_field interaction_payload "custom_id");
      registered ← lift (contains (menus self) custom_id);
      if registered : bool then
        _ ← fire "interaction_receive"
              (events_or_empty self "interaction_receive")
              [Interaction interaction_payload];
        _ ← fire "menu_select"
              (events_or_empty self "menu_select")
              [Interaction interaction_payload];
        custom_id ← lift (data_field interaction_payload "custom_id");
        handler ← lift (lookup_registry (menus self) custom_id);
        values ← lift (data_field interaction_payload "values");
        call MenuHandler handler [Interaction interaction_payload; values]
      else
        mret (default_response
                "This menu is not registered with Interaction Gateway API.")
    else
      custom_id ← lift (data_field interaction_payload "custom_id");
      registered ← lift (contains (buttons self) custom_id);
      if registered : bool then
        _ ← fire "interaction_receive"
              (events_or_empty self "interaction_receive")
              [Interaction interaction_payload];
        _ ← fire "button_click"
              (events_or_empty self "button_click")
              [Interaction interaction_payload];
        custom_id ← lift (data_field interaction_payload "custom_id");
        handler ← lift (lookup_registry (buttons self) custom_id);
        call ButtonHandler handler [Interaction interaction_payload]
      else
        mret (default_response
                "This button is not registered with Interaction Gateway API.")
  else
  t ← lift (getitem interaction_payload "type");
  at_least_4 ← lift (ge_int t 4);
  if at_least_4 : bool then
    mret (default_response
            "This interaction is not yet supported by Interaction Gateway API.")
  else
    t ← lift (getitem interaction_payload "type");
    below_12 ← lift (lt_int t 12);
    if below_12 : bool then
      mret (default_response
              "This interaction is not yet supported by Interaction Gateway API.")
    else
      raise (HTTPException 400
               "Interaction not recognised by Interaction Gateway API.").

(** The endpoint [POST /interaction] (lines 229-340). *)
Definition interaction (self : GatewayClient) (request : Request)
  : M effect value :=
  early ← verify_request self request;
  match early with
  | Some v => mret v
  | None =>
    _ ← emit EJson;
    interaction_payload ← lift (of_option JSONDecodeError
                                  (json_loads (body request)));
    process_request self interaction_payload
  end.

(** What the web framework sends for a run of an endpoint: a raised
    [HTTPException] becomes a response with its status code and the body
    [{"detail": detail}]; any other exception is a server error; a
    returned object is serialised into a [200] response. *)
Record Response := {
  status_code : Z;
  content : value
}.

Definition respond (o : outcome value) : Response :=
  match o with
  | Raised (HTTPException status detail) =>
    {| status_code := status;
       content := VDict [("detail"%string, VStr detail)] |}
  | Raised _ =>
    {| status_code := 500; content := VStr "Internal Server Error" |}
  | Returned v => {| status_code := 200; content := v |}
  end.

(** The handler calls of a trace, in order. *)
Definition calls (t : list effect)
  : list (call_site * Handler * list value) :=
  omap (fun e => match e with
                 | ECall site h args => Some (site, h, args)
                 | _ => None
                 end) t.

(** The lifecycle part of a call list. *)
Definition lifecycle_calls (event : string) (hs : list Handler)
    (args : list value) : list (call_site * Handler * list value) :=
  (fun h => (Lifecycle event, h, args)) <$> hs.

(** A request passes verification and decodes to [interaction_payload]. *)
Definition verified (self : GatewayClient) (request : Request)
    (interaction_payload : value) : Prop :=
  result (verify_request self request) = Returned None
  ∧ json_loads (body request) = Some interaction_payload.

(** The argument list built for a command handler (lines 270-278), for a
    payload whose ["data"] is the dict [d]. *)
Definition command_arguments (interaction_payload : value)
    (d : list (string * value)) : outcome (list value) :=
  if truthy (default VNone (dict_lookup "options" d)) then
    options ← of_option KeyError (dict_lookup "options" d);
    options ← iterate options;
    input_tuple ← collect_options [] options;
    Returned (Interaction interaction_payload :: input_tuple)
  else Returned [Interaction interaction_payload].

(** The same client with other registries. *)
Definition with_registries (self : GatewayClient)
    (b c m : gmap string Handler) (e : gmap string slot)
  : GatewayClient :=
  {| public_key := public_key self;
     buttons := b; commands := c; events := e; menus := m |}.

(** Every handler of the list returns normally on [args]. *)
Definition all_return (hs : list Handler) (args : list value) : Prop :=
  Forall (fun h => exists v, invoke h args = Returned v) hs.

(** The configured public key decodes and a [VerifyKey] can be built. *)
Definition key_ready (self : GatewayClient) (verify_key : list byte) : Prop :=
  exists key_bytes,
    Codec.fromhex (public_key self) = Some key_bytes
    ∧ VerifyKey key_bytes = Some verify_key.

End Client.

Arguments slot : clear implicits.
Arguments GatewayClient : clear implicits.
Arguments effect : clear implicits.

End Gateway.

(** ** Construction and the component decorators *)

Module Setup.
Import Gateway.

(** [output] (lines 18-25): the line that is printed. *)
Definition output (content : string) (type_ : option string) : string :=
  match type_ with
  | Some "ERROR" => "ERR: " ++ content
  | Some "WARNING" => "WARN: " ++ content
  | _ => "INFO: " ++ content
  end%string.

(** [Bot] (lines 27-32). *)
Record Bot := {
  id : value;
  avatar : value;
  username : value;
  discriminator : value
}.

(** [Bot.__init__]: the four keys are read in this order. *)
Definition Bot_init (json : value) : outcome Bot :=
  i ← getitem json "id";
  a ← getitem json "avatar";
  u ← getitem json "username";
  d ← getitem json "discriminator";
  Returned {| id := i; avatar := a; username := u; discriminator := d |}.

(** The classes [ButtonInteraction] and [MenuInteraction] of
    [gatepoint.interaction], as far as the decorators use them: the
    [custom_id] attribute of the object built from a custom id, or the
    exception the constructor raises. *)
Class Components := {
  ButtonInteraction : string -> outcome string;
  MenuInteraction : string -> outcome string
}.

Section Setup.
Context {Handler : Type}.
Context `{Components}.

(** [GatewayClient.__init__] (lines 35-86), given the answer of the
    [GET /users/@me] request: its status code and what [response.json()]
    yields.  The result is the client as the dispatch core sees it (the
    public key and the four registries it reads, all empty) and the bot;
    the remaining attributes are plain copies of the arguments. *)
Definition GatewayClient_init (public_key : string) (status_code : Z)
    (json : outcome value) : outcome (GatewayClient Handler * Bot) :=
  let self := {| Gateway.public_key := public_key;
                 buttons := ∅; commands := ∅; events := ∅; menus := ∅ |} in
  if status_code =? 200 then
    j ← json;
    bot ← Bot_init j;
    Returned (self, bot)
  else Raised ValueError.

(** [GatewayClient.button(custom_id)(func)] (lines 165-176). *)
Definition button (custom_id : string) (func : Handler)
    (self : GatewayClient Handler) : outcome (GatewayClient Handler) :=
  key ← ButtonInteraction custom_id;
  Returned {| public_key := public_key self;
              buttons := <[key := func]> (buttons self);
              commands := commands self;
              events := events self;
              menus := menus self |}.

(** [GatewayClient.menu(custom_id)(func)] (lines 178-189). *)
Definition menu (custom_id : string) (func : Handler)
    (self : GatewayClient Handler) : outcome (GatewayClient Handler) :=
  key ← MenuInteraction custom_id;
  Returned {| public_key := public_key self;
              buttons := buttons self;
              commands := commands self;
              events := events self;
              menus := <[key := func]> (menus self) |}.

End Setup.
End Setup.

(** ** A sample deployment

    A small concrete world on which the endpoint can be run: handlers are
    named by strings, signatures are a byte checksum of the message, and
    the JSON decoder is fixed on a table of sample bodies. *)

Module Sample.
Import Gateway.

Fixpoint bytes_eqb (a b : list byte) : bool :=
  match a, b with
  | [], [] => true
  | x :: a', y :: b' => Byte.eqb x y && bytes_eqb a' b'
  | _, _ => false
  end.

Definition checksum (message : list byte) : byte :=
  Codec.byte_of_Z (foldr (fun b acc => Codec.byte_val b + acc) 0 message mod 256).

Definition sign (message : list byte) : list byte :=
  replicate 64 (checksum message).

#[export] Instance signing : Signing := {|
  VerifyKey kb := if bool_decide (length kb = 32%nat) then Some kb else None;
  verify key message signature :=
    if negb (bool_decide (length signature = 64%nat)) then Raised ValueError
    else if bytes_eqb signature (sign message) then Returned message
    else Raised BadSignatureError
|}.

(** Every handler returns a message naming itself, except ["boom"], which
    raises. *)
Definition invoke (h : string) (args : list value) : outcome value :=
  if String.eqb h "boom" then Raised (OtherError "RuntimeError")
  else Returned (VDict [("type"%string, VInt 4);
                        ("data"%string, VDict [("content"%string, VStr h)])]).

Definition ping_payload : value := VDict [("type"%string, VInt 1)].

Definition command_data (options : list value) : list (string * value) :=
  [("name"%string, VStr "greet"); ("options"%string, VList options)].

Definition command_payload (options : list value) : value :=
  VDict [("type"%string, VInt 2);
         ("data"%string, VDict (command_data options))].

Definition ab_options : list value :=
  [VDict [("name"%string, VStr "first"); ("value"%string, VStr "a")];
   VDict [("name"%string, VStr "second"); ("value"%string, VStr "b")]].

Definition menu_data : list (string * value) :=
  [("component_type"%string, VInt 3);
   ("custom_id"%string, VStr "menu1");
   ("values"%string, VList [VStr "x"; VStr "y"])].

Definition menu_payload : value :=
  VDict [("type"%string, VInt 3); ("data"%string, VDict menu_data)].

Definition menu_data_no_values : list (string * value) :=
  [("component_type"%string, VInt 3);
   ("custom_id"%string, VStr "menu1")].

Definition menu_payload_no_values : value :=
  VDict [("type"%string, VInt 3);
         ("data"%string, VDict menu_data_no_values)].

Definition button_data : list (string * value) :=
  [("component_type"%string, VInt 2);
   ("custom_id"%string, VStr "button1")].

Definition button_payload : value :=
  VDict [("type"%string, VInt 3); ("data"%string, VDict button_data)].

Definition unknown_payload : value := VDict [("type"%string, VInt 99)].

(** Sample bodies and what they decode to. *)
Definition table : list (string * value) :=
  [("ping"%string, ping_payload);
   ("cmd"%string, command_payload []);
   ("cmd-ab"%string, command_payload ab_options);
   ("menu"%string, menu_payload);
   ("menu-no-values"%string, menu_payload_no_values);
   ("button"%string, button_payload);
   ("unknown"%string, unknown_payload)].

Definition json_loads (raw : list byte) : option value :=
  snd <$> find (fun row => bytes_eqb raw (Codec.bytes_of_string (fst row)))
               table.

Definition hex_of_nibble (n : Z) : Ascii.ascii :=
  Ascii.ascii_of_N (Z.to_N (if n <? 10 then 48 + n else 87 + n)).

Fixpoint hex (bs : list byte) : string :=
  match bs with
  | [] => EmptyString
  | b :: r =>
    String (hex_of_nibble (Codec.byte_val b / 16))
           (String (hex_of_nibble (Codec.byte_val b mod 16)) (hex r))
  end.

Definition timestamp : string := "1700000000".

Definition forged_signature : string :=
  hex (sign (Codec.bytes_of_string "something else")).

(** A request carrying [raw] with a well-formed signature header. *)
Definition signed (raw : string) : Request :=
  {| headers :=
       [("x-signature-ed25519"%string,
         hex (sign (Codec.bytes_of_string (timestamp ++ raw))));
        ("x-signature-timestamp"%string, timestamp)];
     body := Codec.bytes_of_string raw |}.

(** The same request with a signature that does not match. *)
Definition forged (raw : string) : Request :=
  {| headers :=
       [("x-signature-ed25519"%string, forged_signature);
        ("x-signature-timestamp"%string, timestamp)];
     body := Codec.bytes_of_string raw |}.

(** A request without the timestamp header. *)
Definition unstamped (raw : string) : Request :=
  {| headers :=
       [("x-signature-ed25519"%string,
         hex (sign (Codec.bytes_of_string (timestamp ++ raw))))];
     body := Codec.bytes_of_string raw |}.

Definition empty_client : GatewayClient string :=
  {| public_key :=
       "3d4017c3e843895a92b70aa74d1b7ebc9c982ccf2ec4968cc0cd55f12af4660c";
     buttons := ∅; commands := ∅; events := ∅; menus := ∅ |}.

(** The key the sample clients verify with. *)
Definition key : list byte :=
  default [] (Codec.fromhex (public_key empty_client)).

(** A request whose body is a lone byte [0xff], not valid UTF-8. *)
Definition undecodable : Request :=
  {| headers :=
       [("x-signature-ed25519"%string, forged_signature);
        ("x-signature-timestamp"%string, timestamp)];
     body := [xff] |}.

(** Running the endpoint in the sample world. *)
Definition run (self : GatewayClient string) (request : Request)
  : M (effect string) value :=
  interaction invoke json_loads self request.

(** A configured client: one command, one menu, one button, and one
    handler for each lifecycle event. *)
Definition client : GatewayClient string :=
  {| public_key := public_key empty_client;
     buttons := {["button1"%string := "on_button"%string]};
     commands := {["greet"%string := "on_greet"%string]};
     events :=
       events (on "button_click" "log_button"
                 (on "menu_select" "log_menu"
                    (on "command_receive" "log_command"
                       (on "interaction_receive" "log_any" empty_client))));
     menus := {["menu1"%string := "on_menu"%string]} |}.

End Sample.

(** ** Further sample data *)

Module Sample2.
Import Gateway.
#[local] Existing Instance Sample.signing.

(** Components whose objects keep the custom id they were built from. *)
#[export] Instance components : Setup.Components := {|
  Setup.ButtonInteraction cid := Returned cid;
  Setup.MenuInteraction cid := Returned cid
|}.

Definition no_type_payload : value :=
  VDict [("data"%string, VDict Sample.button_data)].

Definition text_type_payload : value := VDict [("type"%string, VStr "2")].

Definition menu_as_button_data : list (string * value) :=
  [("component_type"%string, VInt 3);
   ("custom_id"%string, VStr "button1");
   ("values"%string, VList [])].

Definition menu_as_button_payload : value :=
  VDict [("type"%string, VInt 3);
         ("data"%string, VDict menu_as_button_data)].

Definition button_as_menu_data : list (string * value) :=
  [("component_type"%string, VInt 2);
   ("custom_id"%string, VStr "menu1")].

Definition button_as_menu_payload : value :=
  VDict [("type"%string, VInt 3);
         ("data"%string, VDict button_as_menu_data)].

Definition nan_type_payload : value :=
  VDict [("type"%string, VFloat FNaN)].

Definition menu_null_data : list (string * value) :=
  [("component_type"%string, VInt 3);
   ("custom_id"%string, VStr "menu1");
   ("values"%string, VNone)].

Definition menu_null_payload : value :=
  VDict [("type"%string, VInt 3); ("data"%string, VDict menu_null_data)].

Definition fresh_button_data : list (string * value) :=
  [("component_type"%string, VInt 2);
   ("custom_id"%string, VStr "fresh")].

Definition fresh_button_payload : value :=
  VDict [("type"%string, VInt 3);
         ("data"%string, VDict fresh_button_data)].

Definition table : list (string * value) :=
  Sample.table
  ++ [("no-type"%string, no_type_payload);
      ("text-type"%string, text_type_payload);
      ("menu-as-button"%string, menu_as_button_payload);
      ("button-as-menu"%string, button_as_menu_payload);
      ("fresh-button"%string, fresh_button_payload);
      ("nan-type"%string, nan_type_payload);
      ("menu-null"%string, menu_null_payload)].

Definition json_loads (raw : list byte) : option value :=
  snd <$> find (fun row =>
                  Sample.bytes_eqb raw (Codec.bytes_of_string (fst row)))
               table.

Definition run (self : GatewayClient string) (request : Request)
  : M (effect string) value :=
  interaction Sample.invoke json_loads self request.

(** A request whose signature header is not hexadecimal. *)
Definition unhexed (raw : string) : Request :=
  {| headers :=
       [("x-signature-ed25519"%string, "not hex at all"%string);
        ("x-signature-timestamp"%string, Sample.timestamp)];
     body := Codec.bytes_of_string raw |}.

(** A request whose signature has 63 bytes. *)
Definition short_signed (raw : string) : Request :=
  {| headers :=
       [("x-signature-ed25519"%string,
         Sample.hex (replicate 63 x00));
        ("x-signature-timestamp"%string, Sample.timestamp)];
     body := Codec.bytes_of_string raw |}.

(** A client whose public key is not hexadecimal. *)
Definition keyless_client : GatewayClient string :=
  {| public_key := "not a key";
     buttons := buttons Sample.client;
     commands := commands Sample.client;
     events := events Sample.client;
     menus := menus Sample.client |}.

(** A client whose second [interaction_receive] handler raises. *)
Definition failing_client : GatewayClient string :=
  {| public_key := public_key Sample.client;
     buttons := buttons Sample.client;
     commands := commands Sample.client;
     events := {["interaction_receive"%string
                 := SList ["log_any"; "boom"; "late"]%string;
                 "startup"%string := SList ["warm_up"; "boom"; "late"]%string]};
     menus := menus Sample.client |}.

(** What [GET /users/@me] answers for a valid token. *)
Definition me : value :=
  VDict [("id"%string, VStr "42"); ("avatar"%string, VNone);
         ("username"%string, VStr "gate"); ("discriminator"%string, VStr "0001")].

End Sample2.

(** * Properties *)

(** ** The codecs on sample inputs *)

Example utf8_decode_ascii :
  Codec.utf8_decode (Codec.bytes_of_string "{}") = Some [123; 125].
Proof. reflexivity. Qed.

Example utf8_decode_two_byte :
  Codec.utf8_decode [xc3; xa9] = Some [233].
Proof. reflexivity. Qed.

Example utf8_decode_overlong : Codec.utf8_decode [xc0; x80] = None.
Proof. reflexivity. Qed.

Example utf8_decode_surrogate : Codec.utf8_decode [xed; xa0; x80] = None.
Proof. reflexivity. Qed.

Example utf8_decode_lone_ff : Codec.utf8_decode [xff] = None.
Proof. reflexivity. Qed.

Example utf8_encode_astral :
  Codec.utf8_encode [0x1F600] = Some [xf0; x9f; x98; x80].
Proof. reflexivity. Qed.

Example fromhex_spaces :
  Codec.fromhex " 0a 0B" = Some [x0a; x0b].
Proof. reflexivity. Qed.

Example fromhex_split_digit : Codec.fromhex "0 a" = None.
Proof. reflexivity. Qed.

Example lower_header :
  Codec.lower "X-Signature-Ed25519" = "x-signature-ed25519"%string.
Proof. reflexivity. Qed.

(** ** The UTF-8 codec *)

Module CodecFacts.
Import Codec.

Lemma byte_val_range (b : byte) : 0 <= byte_val b < 256.
Proof.
  unfold byte_val. pose proof (Byte.to_N_bounded b). lia.
Qed.

Lemma byte_of_Z_val (b : byte) : byte_of_Z (byte_val b) = b.
Proof.
  unfold byte_of_Z, byte_val. rewrite N2Z.id, Byte.of_to_N. reflexivity.
Qed.

Ltac split_conds :=
  repeat match goal with
  | H : _ && _ = true |- _ => apply andb_prop in H; destruct H
  | H : (_ <=? _) = true |- _ => apply Z.leb_le in H
  | H : (_ <=? _) = false |- _ => apply Z.leb_gt in H
  | H : (_ <? _) = true |- _ => apply Z.ltb_lt in H
  | H : (_ <? _) = false |- _ => apply Z.ltb_ge in H
  | H : (_ =? _) = true |- _ => apply Z.eqb_eq in H
  | H : (_ =? _) = false |- _ => apply Z.eqb_neq in H
  | H : is_cont _ = true |- _ => unfold is_cont in H
  end.

Ltac decide_conds :=
  repeat match goal with
  | |- context [?a <? ?b] =>
    first [ rewrite (proj2 (Z.ltb_lt a b)) by lia
          | rewrite (proj2 (Z.ltb_ge a b)) by lia ]
  | |- context [?a <=? ?b] =>
    first [ rewrite (proj2 (Z.leb_le a b)) by lia
          | rewrite (proj2 (Z.leb_gt a b)) by lia ]
  end.

Lemma encode_cp_1 (x1 : Z) :
  0 <= x1 < 0x80 -> utf8_encode_cp x1 = Some [byte_of_Z x1].
Proof.
  intros Hx. unfold utf8_encode_cp. decide_conds. reflexivity.
Qed.

Lemma encode_cp_2 (x1 x2 : Z) :
  0xC2 <= x1 < 0xE0 -> 0x80 <= x2 <= 0xBF ->
  utf8_encode_cp ((x1 - 0xC0) * 64 + (x2 - 0x80))
  = Some [byte_of_Z x1; byte_of_Z x2].
Proof.
  intros H1 H2. unfold utf8_encode_cp.
  set (c := (x1 - 0xC0) * 64 + (x2 - 0x80)).
  assert (Hd : c / 64 = x1 - 0xC0)
    by (unfold c; rewrite Z.div_add_l, Z.div_small; lia).
  assert (Hm : c mod 64 = x2 - 0x80)
    by (unfold c; rewrite Z.add_comm, Z.mod_add, Z.mod_small; lia).
  assert (0x80 <= c < 0x800) by (unfold c; lia).
  decide_conds. rewrite Hd, Hm. repeat f_equal; lia.
Qed.

Lemma encode_cp_3 (x1 x2 x3 : Z) :
  0xE0 <= x1 < 0xF0 ->
  (if x1 =? 0xE0 then 0xA0 else 0x80) <= x2 ->
  x2 <= (if x1 =? 0xED then 0x9F else 0xBF) ->
  0x80 <= x3 <= 0xBF ->
  utf8_encode_cp ((x1 - 0xE0) * 4096 + (x2 - 0x80) * 64 + (x3 - 0x80))
  = Some [byte_of_Z x1; byte_of_Z x2; byte_of_Z x3].
Proof.
  intros H1 Hlo Hhi H3. unfold utf8_encode_cp.
  set (c := (x1 - 0xE0) * 4096 + (x2 - 0x80) * 64 + (x3 - 0x80)).
  assert (0x80 <= x2 <= 0xBF)
    by (destruct (x1 =? 0xE0), (x1 =? 0xED); lia).
  assert (Hd : c / 4096 = x1 - 0xE0).
  { unfold c. rewrite <- Z.add_assoc, Z.div_add_l, Z.div_small; lia. }
  assert (Hq : c / 64 = (x1 - 0xE0) * 64 + (x2 - 0x80)).
  { unfold c.
    replace ((x1 - 0xE0) * 4096 + (x2 - 0x80) * 64 + (x3 - 0x80))
      with (((x1 - 0xE0) * 64 + (x2 - 0x80)) * 64 + (x3 - 0x80)) by lia.
    rewrite Z.div_add_l, Z.div_small; lia. }
  assert (Hm : c mod 64 = x3 - 0x80).
  { unfold c.
    replace ((x1 - 0xE0) * 4096 + (x2 - 0x80) * 64 + (x3 - 0x80))
      with ((x3 - 0x80) + ((x1 - 0xE0) * 64 + (x2 - 0x80)) * 64) by lia.
    rewrite Z.mod_add, Z.mod_small; lia. }
  assert (Hqm : (c / 64) mod 64 = x2 - 0x80).
  { rewrite Hq, Z.add_comm, Z.mod_add, Z.mod_small; lia. }
  assert (0x800 <= c < 0x10000).
  { unfold c. destruct (Z.eqb_spec x1 0xE0); lia. }
  assert (Hs : (0xD800 <=? c) && (c <=? 0xDFFF) = false).
  { apply andb_false_iff. unfold c.
    destruct (Z.eqb_spec x1 0xED).
    - left. apply Z.leb_gt. lia.
    - destruct (Z_lt_le_dec x1 0xED).
      + left. apply Z.leb_gt. lia.
      + right. apply Z.leb_gt. lia. }
  decide_conds. rewrite Hs, Hd, Hqm, Hm. repeat f_equal; lia.
Qed.

Lemma encode_cp_4 (x1 x2 x3 x4 : Z) :
  0xF0 <= x1 < 0xF5 ->
  (if x1 =? 0xF0 then 0x90 else 0x80) <= x2 ->
  x2 <= (if x1 =? 0xF4 then 0x8F else 0xBF) ->
  0x80 <= x3 <= 0xBF -> 0x80 <= x4 <= 0xBF ->
  utf8_encode_cp ((x1 - 0xF0) * 262144 + (x2 - 0x80) * 4096
                  + (x3 - 0x80) * 64 + (x4 - 0x80))
  = Some [byte_of_Z x1; byte_of_Z x2; byte_of_Z x3; byte_of_Z x4].
Proof.
  intros H1 Hlo Hhi H3 H4. unfold utf8_encode_cp.
  set (c := (x1 - 0xF0) * 262144 + (x2 - 0x80) * 4096
            + (x3 - 0x80) * 64 + (x4 - 0x80)).
  assert (0x80 <= x2 <= 0xBF)
    by (destruct (x1 =? 0xF0), (x1 =? 0xF4); lia).
  assert (Hq1 : c / 64
                = (x1 - 0xF0) * 4096 + (x2 - 0x80) * 64 + (x3 - 0x80)).
  { unfold c.
    replace ((x1 - 0xF0) * 262144 + (x2 - 0x80) * 4096
             + (x3 - 0x80) * 64 + (x4 - 0x80))
      with (((x1 - 0xF0) * 4096 + (x2 - 0x80) * 64 + (x3 - 0x80)) * 64
            + (x4 - 0x80)) by lia.
    rewrite Z.div_add_l, Z.div_small; lia. }
  assert (Hq2 : c / 4096 = (x1 - 0xF0) * 64 + (x2 - 0x80)).
  { unfold c.
    replace ((x1 - 0xF0) * 262144 + (x2 - 0x80) * 4096
             + (x3 - 0x80) * 64 + (x4 - 0x80))
      with (((x1 - 0xF0) * 64 + (x2 - 0x80)) * 4096
            + ((x3 - 0x80) * 64 + (x4 - 0x80))) by lia.
    rewrite Z.div_add_l, Z.div_small; lia. }
  assert (Hq3 : c / 262144 = x1 - 0xF0).
  { unfold c.
    replace ((x1 - 0xF0) * 262144 + (x2 - 0x80) * 4096
             + (x3 - 0x80) * 64 + (x4 - 0x80))
      with ((x1 - 0xF0) * 262144
            + ((x2 - 0x80) * 4096 + (x3 - 0x80) * 64 + (x4 - 0x80))) by lia.
    rewrite Z.div_add_l, Z.div_small; lia. }
  assert (Hm : c mod 64 = x4 - 0x80).
  { unfold c.
    replace ((x1 - 0xF0) * 262144 + (x2 - 0x80) * 4096
             + (x3 - 0x80) * 64 + (x4 - 0x80))
      with ((x4 - 0x80)
            + ((x1 - 0xF0) * 4096 + (x2 - 0x80) * 64 + (x3 - 0x80)) * 64)
      by lia.
    rewrite Z.mod_add, Z.mod_small; lia. }
  assert (Hm1 : (c / 64) mod 64 = x3 - 0x80).
  { rewrite Hq1.
    replace ((x1 - 0xF0) * 4096 + (x2 - 0x80) * 64 + (x3 - 0x80))
      with ((x3 - 0x80) + ((x1 - 0xF0) * 64 + (x2 - 0x80)) * 64) by lia.
    rewrite Z.mod_add, Z.mod_small; lia. }
  assert (Hm2 : (c / 4096) mod 64 = x2 - 0x80).
  { rewrite Hq2, Z.add_comm, Z.mod_add, Z.mod_small; lia. }
  assert (0x10000 <= c < 0x110000).
  { unfold c. destruct (Z.eqb_spec x1 0xF0), (Z.eqb_spec x1 0xF4); lia. }
  decide_conds. rewrite Hq3, Hm2, Hm1, Hm. repeat f_equal; lia.
Qed.

Lemma fmap_cons_Some (c : Z) (o : option (list Z)) (s : list Z) :
  cons c <$> o = Some s -> exists s', s = c :: s' /\ o = Some s'.
Proof.
  destruct o as [s'|]; simpl; intros Heq; [|discriminate].
  injection Heq as <-. eauto.
Qed.

Lemma utf8_encode_cons (c : Z) (s : list Z) (bs bs' : list byte) :
  utf8_encode_cp c = Some bs -> utf8_encode s = Some bs' ->
  utf8_encode (c :: s) = Some (bs ++ bs').
Proof. intros Hc Hs. simpl. rewrite Hc, Hs. reflexivity. Qed.

(** Strict decoding is injective: re-encoding what was decoded gives the
    original bytes back. *)
Lemma utf8_encode_decode (bs : list byte) :
  forall s, utf8_decode bs = Some s -> utf8_encode s = Some bs.
Proof.
  remember (length bs) as n eqn:Hn. revert bs Hn.
  induction n as [n IH] using lt_wf_ind. intros bs Hn s Hdec.
  destruct bs as [|b1 r1]; [injection Hdec as <-; reflexivity|].
  simpl in Hdec, Hn.
  pose proof (byte_val_range b1) as Hb1.
  destruct (byte_val b1 <? 0x80) eqn:C1.
  { apply fmap_cons_Some in Hdec as (s' & -> & Hdec). split_conds.
    rewrite (utf8_encode_cons _ _ [b1] r1).
    - reflexivity.
    - rewrite encode_cp_1 by lia. rewrite byte_of_Z_val. reflexivity.
    - eapply (IH (length r1)); [lia|reflexivity|exact Hdec]. }
  destruct (byte_val b1 <? 0xC2) eqn:C2; [discriminate|].
  destruct (byte_val b1 <? 0xE0) eqn:C3.
  { destruct r1 as [|b2 r2]; [discriminate|].
    destruct (is_cont (byte_val b2)) eqn:K2; [|discriminate].
    apply fmap_cons_Some in Hdec as (s' & -> & Hdec). split_conds.
    rewrite (utf8_encode_cons _ _ [b1; b2] r2).
    - reflexivity.
    - rewrite encode_cp_2 by lia. rewrite !byte_of_Z_val. reflexivity.
    - eapply (IH (length r2)); [simpl in Hn; lia|reflexivity|exact Hdec]. }
  destruct (byte_val b1 <? 0xF0) eqn:C4.
  { destruct r1 as [|b2 [|b3 r3]]; try discriminate.
    match type of Hdec with
    | (if ?c then _ else _) = _ => destruct c eqn:K; [|discriminate]
    end.
    apply fmap_cons_Some in Hdec as (s' & -> & Hdec). split_conds.
    rewrite (utf8_encode_cons _ _ [b1; b2; b3] r3).
    - reflexivity.
    - rewrite encode_cp_3 by (assumption || lia).
      rewrite !byte_of_Z_val. reflexivity.
    - eapply (IH (length r3)); [simpl in Hn; lia|reflexivity|exact Hdec]. }
  destruct (byte_val b1 <? 0xF5) eqn:C5; [|discriminate].
  destruct r1 as [|b2 [|b3 [|b4 r4]]]; try discriminate.
  match type of Hdec with
  | (if ?c then _ else _) = _ => destruct c eqn:K; [|discriminate]
  end.
  apply fmap_cons_Some in Hdec as (s' & -> & Hdec). split_conds.
  rewrite (utf8_encode_cons _ _ [b1; b2; b3; b4] r4).
  - reflexivity.
  - rewrite encode_cp_4 by (assumption || lia).
    rewrite !byte_of_Z_val. reflexivity.
  - eapply (IH (length r4)); [simpl in Hn; lia|reflexivity|exact Hdec].
Qed.

Lemma utf8_encode_app (s1 s2 : list Z) (b1 b2 : list byte) :
  utf8_encode s1 = Some b1 -> utf8_encode s2 = Some b2 ->
  utf8_encode (s1 ++ s2) = Some (b1 ++ b2).
Proof.
  revert b1. induction s1 as [|c s1 IH]; intros b1 H1 H2; simpl in *.
  - injection H1 as <-. exact H2.
  - destruct (utf8_encode_cp c) as [bc|]; [|discriminate].
    destruct (utf8_encode s1) as [bs1|]; [|discriminate].
    injection H1 as <-. rewrite (IH bs1 eq_refl H2).
    rewrite app_assoc. reflexivity.
Qed.

(** A header value always encodes: its code points are below 256. *)
Lemma utf8_encode_header (h : string) :
  exists bs, utf8_encode (str_of_header h) = Some bs.
Proof.
  unfold str_of_header.
  induction (String.list_ascii_of_string h) as [|a l [bs IH]];
    [exists []; reflexivity|].
  pose proof (Ascii.N_ascii_bounded a) as Ha.
  assert (Hc : exists bc,
             utf8_encode_cp (Z.of_N (Ascii.N_of_ascii a)) = Some bc).
  { unfold utf8_encode_cp.
    repeat match goal with
    | |- context [if ?c then _ else _] => destruct c eqn:?
    end; split_conds; eauto; lia. }
  rewrite fmap_cons. simpl.
  destruct Hc as [bc ->]. rewrite IH. eauto.
Qed.

End CodecFacts.

(** ** The monad and the lifecycle loop *)

Module GatewayFacts.
Import Gateway.

Section Monad.
Context {E A B : Type}.

Lemma bind_lift_Returned (a : A) (f : A -> M E B) :
  lift (Returned a) ≫= f = f a.
Proof. unfold mbind, M_bind, lift. simpl. destruct (f a); reflexivity. Qed.

Lemma bind_lift_Raised (e : exn) (f : A -> M E B) :
  lift (Raised e) ≫= f = raise e.
Proof. reflexivity. Qed.

Lemma bind_mret (a : A) (f : A -> M E B) : mret a ≫= f = f a.
Proof. unfold mbind, M_bind, mret, M_ret. simpl. destruct (f a); reflexivity. Qed.

Lemma bind_Returned (t : list E) (a : A) (f : A -> M E B) :
  ((t, Returned a) : M E A) ≫= f = (t ++ fst (f a), snd (f a)).
Proof. reflexivity. Qed.

Lemma bind_Raised (t : list E) (e : exn) (f : A -> M E B) :
  ((t, Raised e) : M E A) ≫= f = (t, Raised e).
Proof. reflexivity. Qed.

End Monad.

Lemma outcome_bind_Returned {A B : Type} (a : A) (f : A -> outcome B) :
  Returned a ≫= f = f a.
Proof. reflexivity. Qed.

Lemma bind_emit {E B : Type} (e : E) (f : unit -> M E B) :
  emit e ≫= f = (e :: fst (f tt), snd (f tt)).
Proof. reflexivity. Qed.

Section Facts.
Context {Handler : Type}.
Variable invoke : Handler -> list value -> outcome value.
Context `{Signing}.
Variable json_loads : list byte -> option value.

Local Abbreviation fire := (fire invoke).
Local Abbreviation process_request := (process_request invoke).
Local Abbreviation interaction := (interaction invoke json_loads).
Local Abbreviation verified := (verified json_loads).
Local Abbreviation effect := (effect Handler).
Local Abbreviation GatewayClient := (GatewayClient Handler).

Local Abbreviation all_return := (all_return invoke).

Lemma calls_app (t1 t2 : list effect) :
  calls (t1 ++ t2) = calls t1 ++ calls t2.
Proof. apply omap_app. Qed.

Lemma fire_cons (event : string) (h : Handler) (hs : list Handler)
    (args : list value) :
  fire event (h :: hs) args
  = match invoke h args with
    | Returned _ =>
      (ECall (Lifecycle event) h args :: trace (fire event hs args),
       result (fire event hs args))
    | Raised e => ([ECall (Lifecycle event) h args], Raised e)
    end.
Proof.
  cbn [Gateway.fire]. unfold call.
  destruct (invoke h args); reflexivity.
Qed.

Lemma fire_all_return (event : string) (hs : list Handler)
    (args : list value) :
  all_return hs args ->
  fire event hs args
  = ((fun h => ECall (Lifecycle event) h args) <$> hs, Returned tt).
Proof.
  induction 1 as [|h hs [v Hv] _ IH]; [reflexivity|].
  rewrite fire_cons, Hv, IH. reflexivity.
Qed.

Lemma calls_lifecycle_trace (event : string) (hs : list Handler)
    (args : list value) :
  calls ((fun h => ECall (Lifecycle event) h args) <$> hs)
  = lifecycle_calls event hs args.
Proof.
  induction hs as [|h hs IH]; [reflexivity|].
  rewrite fmap_cons. unfold lifecycle_calls. rewrite fmap_cons.
  change (calls (ECall (Lifecycle event) h args
                 :: ((fun h => ECall (Lifecycle event) h args) <$> hs)))
    with ((Lifecycle event, h, args)
          :: calls ((fun h => ECall (Lifecycle event) h args) <$> hs)).
  rewrite IH. reflexivity.
Qed.

(** Whatever the handlers do, the loop calls an initial segment of the
    list, in order, and the whole list when it completes. *)
Lemma fire_calls (event : string) (hs : list Handler) (args : list value) :
  calls (trace (fire event hs args)) `prefix_of` lifecycle_calls event hs args
  ∧ (forall u, result (fire event hs args) = Returned u ->
        calls (trace (fire event hs args)) = lifecycle_calls event hs args).
Proof.
  induction hs as [|h hs [IHp IHr]]; [split; reflexivity|].
  rewrite fire_cons. destruct (invoke h args) as [v|e].
  - unfold trace, result in *. simpl. split.
    + apply prefix_cons, IHp.
    + intros u Hu. unfold lifecycle_calls. simpl. f_equal. eapply IHr, Hu.
  - unfold trace, result. simpl. split.
    + apply prefix_cons, prefix_nil.
    + discriminate.
Qed.

(** The verification phase calls no handler. *)
Lemma verify_request_calls (self : GatewayClient) (request : Request) :
  calls (trace (verify_request self request)) = [].
Proof.
  unfold verify_request.
  destruct (Codec.fromhex (public_key self)) as [kb|]; [|reflexivity].
  simpl of_option. rewrite bind_lift_Returned.
  destruct (VerifyKey kb) as [k|]; [|reflexivity].
  simpl of_option. rewrite bind_lift_Returned.
  destruct (headers_get request "X-Signature-Ed25519") as [s|];
    [|reflexivity].
  destruct (headers_get request "X-Signature-Timestamp") as [t|];
    [|reflexivity].
  destruct (negb _ || negb _); [reflexivity|].
  rewrite bind_emit.
  destruct (Codec.utf8_decode (body request)) as [text|]; [|reflexivity].
  simpl of_option. rewrite bind_lift_Returned.
  destruct (Codec.utf8_encode _) as [message|]; [|reflexivity].
  simpl of_option. rewrite bind_lift_Returned.
  destruct (Codec.fromhex s) as [sg|]; [|reflexivity].
  simpl of_option. rewrite bind_lift_Returned, bind_emit.
  destruct (verify k message sg) as [m|[]]; reflexivity.
Qed.

(** Once a request is verified, the endpoint decodes the body and runs the
    dispatch phase on the payload. *)
Lemma interaction_verified (self : GatewayClient) (request : Request)
    (interaction_payload : value) :
  verified self request interaction_payload ->
  interaction self request
  = (trace (verify_request self request)
       ++ EJson :: trace (process_request self interaction_payload),
     result (process_request self interaction_payload)).
Proof.
  intros [Hv Hj]. unfold interaction, Gateway.interaction.
  destruct (verify_request self request) as [t r]. unfold result in Hv.
  simpl in Hv. subst r. rewrite bind_Returned, bind_emit, Hj.
  simpl of_option. rewrite bind_lift_Returned. reflexivity.
Qed.

Lemma interaction_verified_calls (self : GatewayClient) (request : Request)
    (interaction_payload : value) :
  verified self request interaction_payload ->
  calls (trace (interaction self request))
  = calls (trace (process_request self interaction_payload))
  ∧ result (interaction self request)
    = result (process_request self interaction_payload).
Proof.
  intros Hv. rewrite (interaction_verified _ _ _ Hv).
  split; [|reflexivity].
  unfold trace at 1. cbn [fst].
  rewrite calls_app, verify_request_calls. reflexivity.
Qed.

(** ** The verification phase *)

Lemma verify_request_ready (self : GatewayClient) (request : Request)
    (k : list byte) (s t : string) :
  key_ready self k ->
  headers_get request "X-Signature-Ed25519" = Some s ->
  headers_get request "X-Signature-Timestamp" = Some t ->
  s ≠ ""%string -> t ≠ ""%string ->
  verify_request self request
  = (_ ← emit EBody;
     body ← lift (of_option UnicodeDecodeError
                    (Codec.utf8_decode (body request)));
     message ← lift (of_option UnicodeEncodeError
                       (Codec.utf8_encode (Codec.str_of_header t ++ body)));
     signature ← lift (of_option ValueError (Codec.fromhex s));
     _ ← emit (EVerify k message signature);
     match verify k message signature with
     | Returned _ => mret None
     | Raised BadSignatureError =>
       mret (Some (VException
                     (HTTPException 401 "invalid request signature")))
     | Raised e => raise e
     end).
Proof.
  intros (kb & Hkb & Hk) Hs Ht Hse Hte. unfold verify_request.
  rewrite Hkb. simpl of_option. rewrite bind_lift_Returned, Hk.
  simpl of_option. rewrite bind_lift_Returned, Hs, Ht.
  unfold truthy_header.
  apply String.eqb_neq in Hse, Hte. rewrite Hse, Hte. reflexivity.
Qed.

(** C6. A request lacking the signature header or the timestamp header
    (or carrying an empty one) performs no effect at all: the body is not
    read, no verification is attempted and no JSON is decoded.  On a client
    whose public key is usable the endpoint raises [HTTPException] with
    status 401 and detail "missing request signature", which is sent as
    [{"detail": "missing request signature"}]. *)
Theorem missing_signature_unauthorized (self : GatewayClient)
    (request : Request) :
  truthy_header (headers_get request "X-Signature-Ed25519") = false
  ∨ truthy_header (headers_get request "X-Signature-Timestamp") = false ->
  trace (interaction self request) = []
  ∧ (forall k, key_ready self k ->
       result (interaction self request)
       = Raised (HTTPException 401 "missing request signature")
       ∧ respond (result (interaction self request))
         = {| status_code := 401;
              content :=
                VDict [("detail"%string,
                        VStr "missing request signature")] |}).
Proof.
  intros Hmiss.
  assert (Hv : forall kb k,
             Codec.fromhex (public_key self) = Some kb ->
             VerifyKey kb = Some k ->
             verify_request self request
             = raise (HTTPException 401 "missing request signature")).
  { intros kb k Hkb Hk. unfold verify_request.
    rewrite Hkb. simpl of_option. rewrite bind_lift_Returned, Hk.
    simpl of_option. rewrite bind_lift_Returned.
    destruct (headers_get request "X-Signature-Ed25519") as [s|];
      [|reflexivity].
    destruct (headers_get request "X-Signature-Timestamp") as [t|];
      [|reflexivity].
    destruct Hmiss as [-> | ->]; [reflexivity|].
    rewrite orb_true_r. reflexivity. }
  split.
  - unfold interaction, Gateway.interaction.
    destruct (Codec.fromhex (public_key self)) as [kb|] eqn:Hkb.
    + destruct (VerifyKey kb) as [k|] eqn:Hk.
      * rewrite (Hv kb k eq_refl Hk). reflexivity.
      * unfold verify_request. rewrite Hkb. simpl of_option.
        rewrite bind_lift_Returned, Hk. reflexivity.
    + unfold verify_request. rewrite Hkb. reflexivity.
  - intros k (kb & Hkb & Hk). unfold interaction, Gateway.interaction.
    rewrite (Hv kb k Hkb Hk). split; reflexivity.
Qed.

(** C1. With both headers present, a usable key and a well-formed
    signature that the signing library rejects with [BadSignatureError],
    the endpoint stops after the verification attempt (the body is not
    decoded as JSON and no handler runs), but it RETURNS the
    [HTTPException] object instead of raising it, so the request is
    answered with status 200. *)
Theorem invalid_signature_is_returned (self : GatewayClient)
    (request : Request) (k : list byte) (s t : string)
    (text : list Z) (message sg : list byte) :
  key_ready self k ->
  headers_get request "X-Signature-Ed25519" = Some s ->
  headers_get request "X-Signature-Timestamp" = Some t ->
  s ≠ ""%string -> t ≠ ""%string ->
  Codec.utf8_decode (body request) = Some text ->
  Codec.utf8_encode (Codec.str_of_header t ++ text) = Some message ->
  Codec.fromhex s = Some sg ->
  verify k message sg = Raised BadSignatureError ->
  interaction self request
  = ([EBody; EVerify k message sg],
     Returned (VException (HTTPException 401 "invalid request signature")))
  ∧ result (interaction self request)
    ≠ Raised (HTTPException 401 "invalid request signature")
  ∧ status_code (respond (result (interaction self request))) = 200.
Proof.
  intros Hk Hs Ht Hse Hte Hdec Henc Hsg Hbad.
  assert (Hrun : interaction self request
                 = ([EBody; EVerify k message sg],
                    Returned (VException
                       (HTTPException 401 "invalid request signature")))).
  { unfold interaction, Gateway.interaction.
    rewrite (verify_request_ready _ _ _ _ _ Hk Hs Ht Hse Hte).
    rewrite Hdec. simpl of_option. rewrite bind_lift_Returned, Henc.
    simpl of_option. rewrite bind_lift_Returned, Hsg.
    simpl of_option. rewrite bind_lift_Returned, Hbad. reflexivity. }
  rewrite Hrun. repeat split. discriminate.
Qed.

(** C10. With both headers present and a usable key: a body that is not
    valid UTF-8 makes the endpoint raise [UnicodeDecodeError] right after
    reading it, before any verification is attempted and whatever the
    signature is; for a body that is valid UTF-8, the message built for the
    check, the encoding of the timestamp text followed by the decoded body,
    is the encoded timestamp followed by the raw body bytes, and this is
    the message handed to the signing library as soon as the signature
    header is hexadecimal. *)
Theorem signed_message_is_timestamp_then_body (self : GatewayClient)
    (request : Request) (k : list byte) (s t : string) :
  key_ready self k ->
  headers_get request "X-Signature-Ed25519" = Some s ->
  headers_get request "X-Signature-Timestamp" = Some t ->
  s ≠ ""%string -> t ≠ ""%string ->
  (Codec.utf8_decode (body request) = None ->
   interaction self request = ([EBody], Raised UnicodeDecodeError))
  ∧ (forall text, Codec.utf8_decode (body request) = Some text ->
     exists stamp,
       Codec.utf8_encode (Codec.str_of_header t) = Some stamp
       ∧ Codec.utf8_encode (Codec.str_of_header t ++ text)
         = Some (stamp ++ body request)
       ∧ match Codec.fromhex s with
         | Some signature =>
           trace (verify_request self request)
           = [EBody; EVerify k (stamp ++ body request) signature]
         | None => verify_request self request = ([EBody], Raised ValueError)
         end).
Proof.
  intros Hk Hs Ht Hse Hte.
  pose proof (verify_request_ready _ _ _ _ _ Hk Hs Ht Hse Hte) as Hv.
  split.
  - intros Hdec. unfold interaction, Gateway.interaction.
    rewrite Hv, Hdec. reflexivity.
  - intros text Hdec.
    destruct (CodecFacts.utf8_encode_header t) as [stamp Hstamp].
    pose proof (CodecFacts.utf8_encode_app _ _ _ _ Hstamp
                  (CodecFacts.utf8_encode_decode _ _ Hdec)) as Henc.
    exists stamp. split; [exact Hstamp|]. split; [exact Henc|].
    rewrite Hv, Hdec.
    simpl of_option. rewrite bind_emit, bind_lift_Returned, Henc.
    simpl of_option. rewrite bind_lift_Returned.
    destruct (Codec.fromhex s) as [sg|]; [|reflexivity].
    simpl of_option. rewrite bind_lift_Returned, bind_emit.
    destruct (verify k (stamp ++ body request) sg) as [m|[]]; reflexivity.
Qed.

(** ** The dispatch phase *)

Ltac step :=
  first [ rewrite bind_lift_Returned | rewrite bind_lift_Raised
        | rewrite bind_emit | rewrite bind_mret
        | rewrite bind_Returned | rewrite bind_Raised ];
  cbv beta.

Lemma process_ping (self : GatewayClient) (interaction_payload t : value) :
  getitem interaction_payload "type" = Returned t ->
  eq_int t 1 = true ->
  process_request self interaction_payload
  = mret (VDict [("type"%string, VInt 1)]).
Proof.
  intros Ht H1. unfold process_request, Gateway.process_request.
  rewrite Ht. step. rewrite H1. reflexivity.
Qed.

(** C7. A verified request whose payload has type 1 is answered with
    exactly [{"type": 1}]; no handler of any kind is called, and the whole
    run is the same whatever the four registries hold. *)
Theorem ping_short_circuit (self : GatewayClient) (request : Request)
    (interaction_payload t : value) :
  verified self request interaction_payload ->
  getitem interaction_payload "type" = Returned t ->
  eq_int t 1 = true ->
  result (interaction self request) = Returned (VDict [("type"%string, VInt 1)])
  ∧ calls (trace (interaction self request)) = []
  ∧ (forall b c m e,
       interaction (with_registries self b c m e) request
       = interaction self request).
Proof.
  intros Hv Ht H1.
  destruct (interaction_verified_calls _ _ _ Hv) as [Hc Hr].
  rewrite Hc, Hr, (process_ping _ _ _ Ht H1).
  split; [reflexivity|]. split; [reflexivity|].
  intros b c m e.
  assert (Hv' : verified (with_registries self b c m e) request
                  interaction_payload) by exact Hv.
  rewrite (interaction_verified _ _ _ Hv), (interaction_verified _ _ _ Hv').
  rewrite !(process_ping _ _ _ Ht H1). reflexivity.
Qed.

(** C2. A verified request whose payload type is an integer other than 1,
    2 and 3, inside or outside the range 4..11, gets the default answer
    [{"type": 4, "data": {"content": "This interaction is not yet supported
    by Interaction Gateway API.", "flags": 64}}] with status 200: the test
    [type >= 4 or type < 12] holds for every integer, so the branch that
    raises the 400 error is never taken. *)
Theorem unknown_type_is_not_rejected (self : GatewayClient)
    (request : Request) (interaction_payload : value) (z : Z) :
  verified self request interaction_payload ->
  getitem interaction_payload "type" = Returned (VInt z) ->
  z ≠ 1 -> z ≠ 2 -> z ≠ 3 ->
  result (interaction self request)
  = Returned
      (VDict [("type"%string, VInt 4);
              ("data"%string,
               VDict [("content"%string,
                       VStr "This interaction is not yet supported by Interaction Gateway API.");
                      ("flags"%string, VInt 64)])])
  ∧ calls (trace (interaction self request)) = []
  ∧ status_code (respond (result (interaction self request))) = 200.
Proof.
  intros Hv Ht H1 H2 H3.
  destruct (interaction_verified_calls _ _ _ Hv) as [Hc Hr].
  rewrite Hc, Hr.
  assert (Hp : process_request self interaction_payload
               = mret (default_response
      "This interaction is not yet supported by Interaction Gateway API.")).
  { unfold process_request, Gateway.process_request.
    rewrite Ht. step.
    change (eq_int (VInt z) 1) with (z =? 1).
    rewrite (proj2 (Z.eqb_neq z 1) H1). step.
    change (eq_int (VInt z) 2) with (z =? 2).
    rewrite (proj2 (Z.eqb_neq z 2) H2). step.
    change (eq_int (VInt z) 3) with (z =? 3).
    rewrite (proj2 (Z.eqb_neq z 3) H3). step.
    change (ge_int (VInt z) 4) with (Returned (A:=bool) (4 <=? z)).
    step.
    destruct (4 <=? z) eqn:H4; [reflexivity|]. step.
    change (lt_int (VInt z) 12) with (Returned (A:=bool) (z <? 12)).
    step. apply Z.leb_gt in H4.
    rewrite (proj2 (Z.ltb_lt z 12)) by lia. reflexivity. }
  rewrite Hp. repeat split.
Qed.

Lemma data_field_dict (interaction_payload : value)
    (d : list (string * value)) (k : string) :
  getitem interaction_payload "data" = Returned (VDict d) ->
  data_field interaction_payload k = of_option KeyError (dict_lookup k d).
Proof. intros Hd. unfold data_field. rewrite Hd. reflexivity. Qed.

Lemma get_of_getitem (v x : value) (k : string) :
  getitem v k = Returned x -> get v k = Returned x.
Proof.
  destruct v; try discriminate. simpl.
  destruct (dict_lookup k d); [|discriminate].
  intros [= ->]. reflexivity.
Qed.

Lemma contains_registered {A : Type} (reg : gmap string A) (k : string)
    (a : A) :
  reg !! k = Some a ->
  contains reg (VStr k) = Returned true
  ∧ lookup_registry reg (VStr k) = Returned a.
Proof.
  intros Hk. unfold contains, lookup_registry. rewrite Hk.
  split; reflexivity.
Qed.

Lemma contains_unregistered {A : Type} (reg : gmap string A) (k : string) :
  reg !! k = None -> contains reg (VStr k) = Returned false.
Proof.
  intros Hk. unfold contains. rewrite Hk. reflexivity.
Qed.

(** The dispatch of a command whose name is registered. *)
Lemma process_command_registered (self : GatewayClient)
    (interaction_payload : value) (d : list (string * value))
    (name : string) (h : Handler) :
  getitem interaction_payload "type" = Returned (VInt 2) ->
  getitem interaction_payload "data" = Returned (VDict d) ->
  dict_lookup "name" d = Some (VStr name) ->
  commands self !! name = Some h ->
  process_request self interaction_payload
  = (_ ← emit (EPrintEvents (events self));
     _ ← fire "interaction_receive"
           (events_or_empty self "interaction_receive")
           [Interaction interaction_payload];
     _ ← fire "command_receive"
           (events_or_empty self "command_receive")
           [Interaction interaction_payload];
     args ← lift (command_arguments interaction_payload d);
     call invoke CommandHandler h args).
Proof.
  intros Ht Hd Hn Hh.
  destruct (contains_registered _ _ _ Hh) as [Hc Hl].
  unfold process_request, Gateway.process_request.
  rewrite Ht. step. change (eq_int (VInt 2) 1) with false. cbv iota.
  step. change (eq_int (VInt 2) 2) with true. cbv iota.
  rewrite !(data_field_dict _ _ _ Hd), Hn. simpl of_option.
  step. rewrite Hc. step.
  rewrite (get_of_getitem _ _ _ Hd). step.
  change (get (VDict d) "options")
    with (Returned (default VNone (dict_lookup "options" d))).
  step. unfold command_arguments.
  destruct (truthy (default VNone (dict_lookup "options" d))).
  - destruct (dict_lookup "options" d) as [o|]; simpl of_option;
      [|reflexivity].
    step. rewrite outcome_bind_Returned.
    destruct (iterate o) as [l|e]; [|reflexivity].
    step. rewrite outcome_bind_Returned.
    destruct (collect_options [] l) as [tu|e]; [|reflexivity].
    repeat step. rewrite Hl, outcome_bind_Returned. repeat step.
    reflexivity.
  - repeat step. rewrite Hl. repeat step. reflexivity.
Qed.

(** The common shape of a routed dispatch: the two lifecycle loops, the
    computation of the argument list, then the matched handler. *)
Lemma routed_calls (ev1 ev2 : string) (hs1 hs2 : list Handler)
    (args : list value) (site : call_site) (h : Handler)
    (a : outcome (list value)) (m : M effect value) :
  m = (_ ← fire ev1 hs1 args;
       _ ← fire ev2 hs2 args;
       args' ← lift a;
       call invoke site h args') ->
  ((exists args', a = Returned args'
      ∧ calls (trace m)
        = lifecycle_calls ev1 hs1 args ++ lifecycle_calls ev2 hs2 args
          ++ [(site, h, args')])
   ∨ calls (trace m)
     `prefix_of` lifecycle_calls ev1 hs1 args ++ lifecycle_calls ev2 hs2 args)
  ∧ (all_return hs1 args -> all_return hs2 args ->
     forall args', a = Returned args' ->
       calls (trace m)
       = lifecycle_calls ev1 hs1 args ++ lifecycle_calls ev2 hs2 args
         ++ [(site, h, args')]
       ∧ result m = invoke h args')
  ∧ (all_return hs1 args -> all_return hs2 args ->
     forall e, a = Raised e ->
       calls (trace m)
       = lifecycle_calls ev1 hs1 args ++ lifecycle_calls ev2 hs2 args
       ∧ result m = Raised e).
Proof.
  intros ->. split; [|split].
  - destruct (fire_calls ev1 hs1 args) as [P1 R1].
    destruct (fire_calls ev2 hs2 args) as [P2 R2].
    destruct (fire ev1 hs1 args) as [t1 [[]|e1]].
    2:{ right. rewrite bind_Raised. unfold trace in *. simpl in *.
        apply prefix_app_r, P1. }
    rewrite bind_Returned. unfold trace in *. cbn [fst] in *.
    rewrite calls_app, (R1 _ eq_refl).
    destruct (fire ev2 hs2 args) as [t2 [[]|e2]].
    2:{ right. rewrite bind_Raised. cbn [fst] in *.
        apply prefix_app, P2. }
    rewrite bind_Returned. cbn [fst] in *.
    rewrite calls_app, (R2 _ eq_refl).
    destruct a as [args'|e].
    + left. exists args'. split; [reflexivity|].
      rewrite bind_lift_Returned. reflexivity.
    + right. rewrite bind_lift_Raised. simpl. rewrite !app_nil_r.
      reflexivity.
  - intros A1 A2 args' ->.
    rewrite (fire_all_return _ _ _ A1), (fire_all_return _ _ _ A2).
    rewrite !bind_Returned, bind_lift_Returned.
    unfold trace, result. cbn [fst snd].
    rewrite !calls_app, !calls_lifecycle_trace. split; reflexivity.
  - intros A1 A2 e ->.
    rewrite (fire_all_return _ _ _ A1), (fire_all_return _ _ _ A2).
    rewrite !bind_Returned, bind_lift_Raised.
    unfold trace, result. cbn [fst snd].
    rewrite !calls_app, !calls_lifecycle_trace, !app_nil_r.
    split; reflexivity.
Qed.

(** C8. A verified command request (type 2) whose name is not registered
    gets the answer [{"type": 4, "data": {"content": "This command is not
    registered with Interaction Gateway API.", "flags": 64}}] and no
    handler is called.
    When the name is registered to [h]: the handlers called are an initial
    segment of all [interaction_receive] handlers followed by all
    [command_receive] handlers, in registry order, and [h] is called only
    once that whole sequence has been called; if the lifecycle handlers
    return and the argument list can be built, [h] is called right after
    them and its outcome is the outcome of the request. *)
Theorem command_lifecycle_order (self : GatewayClient) (request : Request)
    (interaction_payload : value) (d : list (string * value))
    (name : string) :
  verified self request interaction_payload ->
  getitem interaction_payload "type" = Returned (VInt 2) ->
  getitem interaction_payload "data" = Returned (VDict d) ->
  dict_lookup "name" d = Some (VStr name) ->
  let fired :=
    lifecycle_calls "interaction_receive"
      (events_or_empty self "interaction_receive")
      [Interaction interaction_payload]
    ++ lifecycle_calls "command_receive"
         (events_or_empty self "command_receive")
         [Interaction interaction_payload] in
  (commands self !! name = None ->
   result (interaction self request)
   = Returned
       (VDict [("type"%string, VInt 4);
               ("data"%string,
                VDict [("content"%string,
                        VStr "This command is not registered with Interaction Gateway API.");
                       ("flags"%string, VInt 64)])])
   ∧ calls (trace (interaction self request)) = [])
  ∧ (forall h, commands self !! name = Some h ->
     ((exists args,
         calls (trace (interaction self request))
         = fired ++ [(CommandHandler, h, args)])
      ∨ calls (trace (interaction self request)) `prefix_of` fired)
     ∧ (all_return (events_or_empty self "interaction_receive")
          [Interaction interaction_payload] ->
        all_return (events_or_empty self "command_receive")
          [Interaction interaction_payload] ->
        forall args,
          command_arguments interaction_payload d = Returned args ->
          calls (trace (interaction self request))
          = fired ++ [(CommandHandler, h, args)]
          ∧ result (interaction self request) = invoke h args)).
Proof.
  intros Hv Ht Hd Hn fired.
  destruct (interaction_verified_calls _ _ _ Hv) as [Hc Hr].
  rewrite Hc, Hr. split.
  - intros Hnone.
    assert (Hp : process_request self interaction_payload
                 = mret (default_response
       "This command is not registered with Interaction Gateway API.")).
    { unfold process_request, Gateway.process_request.
      rewrite Ht. step. change (eq_int (VInt 2) 1) with false. cbv iota.
      step. change (eq_int (VInt 2) 2) with true. cbv iota.
      rewrite !(data_field_dict _ _ _ Hd), Hn. simpl of_option.
      step. rewrite (contains_unregistered _ _ Hnone). step.
      reflexivity. }
    rewrite Hp. split; reflexivity.
  - intros h Hh.
    rewrite (process_command_registered _ _ _ _ _ Ht Hd Hn Hh).
    rewrite bind_emit. unfold trace, result. cbn [fst snd].
    change (calls (EPrintEvents (events self) :: ?t)) with (calls t).
    pose proof (routed_calls "interaction_receive" "command_receive"
                  (events_or_empty self "interaction_receive")
                  (events_or_empty self "command_receive")
                  [Interaction interaction_payload] CommandHandler h
                  (command_arguments interaction_payload d) _ eq_refl)
      as (Hsafe & Hlive & _).
    unfold trace, result in Hsafe, Hlive. subst fired.
    split.
    + destruct Hsafe as [(args & _ & Hs)|Hs]; [left|right; exact Hs].
      exists args. rewrite <- app_assoc. exact Hs.
    + intros A1 A2 args Ha. rewrite <- app_assoc.
      exact (Hlive A1 A2 args Ha).
Qed.

(** C4. A verified command request routed to a registered handler whose
    ["options"] is a non-empty list, the first option carrying a ["value"]
    that is not a tuple (no value decoded from JSON is one): building the
    argument list raises [TypeError] at the first option, because
    [(option["value"])] is the bare value and [tuple.__add__] accepts a
    tuple only.  The command handler is never called; once the lifecycle
    handlers have returned, the request fails with [TypeError]. *)
Theorem option_values_raise_type_error (self : GatewayClient)
    (request : Request) (interaction_payload : value)
    (d : list (string * value)) (name : string) (h : Handler)
    (option v : value) (rest : list value) :
  verified self request interaction_payload ->
  getitem interaction_payload "type" = Returned (VInt 2) ->
  getitem interaction_payload "data" = Returned (VDict d) ->
  dict_lookup "name" d = Some (VStr name) ->
  commands self !! name = Some h ->
  dict_lookup "options" d = Some (VList (option :: rest)) ->
  getitem option "value" = Returned v ->
  (forall l, v ≠ VTuple l) ->
  let fired :=
    lifecycle_calls "interaction_receive"
      (events_or_empty self "interaction_receive")
      [Interaction interaction_payload]
    ++ lifecycle_calls "command_receive"
         (events_or_empty self "command_receive")
         [Interaction interaction_payload] in
  command_arguments interaction_payload d = Raised TypeError
  ∧ calls (trace (interaction self request)) `prefix_of` fired
  ∧ (all_return (events_or_empty self "interaction_receive")
       [Interaction interaction_payload] ->
     all_return (events_or_empty self "command_receive")
       [Interaction interaction_payload] ->
     calls (trace (interaction self request)) = fired
     ∧ result (interaction self request) = Raised TypeError).
Proof.
  intros Hv Ht Hd Hn Hh Ho Hval Htuple fired.
  assert (Ha : command_arguments interaction_payload d = Raised TypeError).
  { unfold command_arguments. rewrite Ho.
    change (truthy (default VNone (Some (VList (option :: rest)))))
      with true. cbv iota.
    simpl of_option. rewrite outcome_bind_Returned.
    change (iterate (VList (option :: rest)))
      with (Returned (option :: rest)).
    rewrite outcome_bind_Returned. cbn [collect_options].
    rewrite Hval, outcome_bind_Returned.
    destruct v; try reflexivity. destruct (Htuple l eq_refl). }
  split; [exact Ha|].
  destruct (interaction_verified_calls _ _ _ Hv) as [Hc Hr].
  rewrite Hc, Hr.
  rewrite (process_command_registered _ _ _ _ _ Ht Hd Hn Hh).
  rewrite bind_emit. unfold trace, result. cbn [fst snd].
  change (calls (EPrintEvents (events self) :: ?t)) with (calls t).
  pose proof (routed_calls "interaction_receive" "command_receive"
                (events_or_empty self "interaction_receive")
                (events_or_empty self "command_receive")
                [Interaction interaction_payload] CommandHandler h
                (command_arguments interaction_payload d) _ eq_refl)
    as (Hsafe & _ & Hfail).
  unfold trace, result in Hsafe, Hfail. subst fired. split.
  - destruct Hsafe as [(args & Hargs & _)|Hs]; [congruence|exact Hs].
  - intros A1 A2. exact (Hfail A1 A2 _ Ha).
Qed.

(** The dispatch of a select-menu interaction. *)
Lemma process_menu (self : GatewayClient) (interaction_payload : value)
    (d : list (string * value)) (ct : value) (cid : string) :
  getitem interaction_payload "type" = Returned (VInt 3) ->
  getitem interaction_payload "data" = Returned (VDict d) ->
  dict_lookup "component_type" d = Some ct ->
  in_ints ct [3; 4; 5; 6; 7; 8] = true ->
  dict_lookup "custom_id" d = Some (VStr cid) ->
  process_request self interaction_payload
  = (_ ← emit (EPrint (VDict d));
     value ← lift (select_value interaction_payload);
     match menus self !! cid with
     | Some h =>
       _ ← fire "interaction_receive"
             (events_or_empty self "interaction_receive")
             [Interaction interaction_payload];
       _ ← fire "menu_select"
             (events_or_empty self "menu_select")
             [Interaction interaction_payload];
       args ← lift (values ← of_option KeyError (dict_lookup "values" d);
                    Returned [Interaction interaction_payload; values]);
       call invoke MenuHandler h args
     | None =>
       mret (default_response
               "This menu is not registered with Interaction Gateway API.")
     end).
Proof.
  intros Ht Hd Hct Hin Hcid.
  unfold process_request, Gateway.process_request.
  rewrite Ht. step. change (eq_int (VInt 3) 1) with false. cbv iota.
  step. change (eq_int (VInt 3) 2) with false. cbv iota.
  step. change (eq_int (VInt 3) 3) with true. cbv iota.
  rewrite Hd. step.
  rewrite !(data_field_dict _ _ _ Hd), Hct, Hcid.
  simpl (of_option _ (Some _)). step. rewrite Hin.
  repeat rewrite (bind_lift_Returned (VStr cid)).
  unfold contains, lookup_registry.
  destruct (menus self !! cid) as [h|]; [|reflexivity].
  change (bool_decide (is_Some (Some h))) with true.
  repeat rewrite (bind_lift_Returned true). simpl (of_option _ (Some h)).
  repeat rewrite (bind_lift_Returned h).
  destruct (dict_lookup "values" d) as [vs|]; simpl of_option.
  - rewrite outcome_bind_Returned.
    repeat rewrite (bind_lift_Returned vs).
    repeat rewrite (bind_lift_Returned [Interaction interaction_payload; vs]).
    reflexivity.
  - reflexivity.
Qed.

(** The dispatch of a component interaction that is not a select menu. *)
Lemma process_button (self : GatewayClient) (interaction_payload : value)
    (d : list (string * value)) (ct : value) (cid : string) :
  getitem interaction_payload "type" = Returned (VInt 3) ->
  getitem interaction_payload "data" = Returned (VDict d) ->
  dict_lookup "component_type" d = Some ct ->
  in_ints ct [3; 4; 5; 6; 7; 8] = false ->
  dict_lookup "custom_id" d = Some (VStr cid) ->
  process_request self interaction_payload
  = (_ ← emit (EPrint (VDict d));
     match buttons self !! cid with
     | Some h =>
       _ ← fire "interaction_receive"
             (events_or_empty self "interaction_receive")
             [Interaction interaction_payload];
       _ ← fire "button_click"
             (events_or_empty self "button_click")
             [Interaction interaction_payload];
       args ← lift (Returned [Interaction interaction_payload]);
       call invoke ButtonHandler h args
     | None =>
       mret (default_response
               "This button is not registered with Interaction Gateway API.")
     end).
Proof.
  intros Ht Hd Hct Hin Hcid.
  unfold process_request, Gateway.process_request.
  rewrite Ht. step. change (eq_int (VInt 3) 1) with false. cbv iota.
  step. change (eq_int (VInt 3) 2) with false. cbv iota.
  step. change (eq_int (VInt 3) 3) with true. cbv iota.
  rewrite Hd. step.
  rewrite !(data_field_dict _ _ _ Hd), Hct, Hcid.
  simpl (of_option _ (Some _)). step. rewrite Hin.
  repeat rewrite (bind_lift_Returned (VStr cid)).
  unfold contains, lookup_registry.
  destruct (buttons self !! cid) as [h|]; [|reflexivity].
  change (bool_decide (is_Some (Some h))) with true.
  repeat rewrite (bind_lift_Returned true). simpl (of_option _ (Some h)).
  repeat rewrite (bind_lift_Returned h).
  repeat rewrite (bind_lift_Returned [Interaction interaction_payload]).
  reflexivity.
Qed.

Lemma select_value_list (interaction_payload : value)
    (d : list (string * value)) (l : list value) :
  getitem interaction_payload "data" = Returned (VDict d) ->
  dict_lookup "values" d = Some (VList l) ->
  select_value interaction_payload = Returned (default VNone (head l)).
Proof.
  intros Hd Hv. unfold select_value.
  rewrite !(data_field_dict _ _ _ Hd), Hv. simpl of_option.
  rewrite outcome_bind_Returned. destruct l; reflexivity.
Qed.

Lemma select_value_absent (interaction_payload : value)
    (d : list (string * value)) :
  getitem interaction_payload "data" = Returned (VDict d) ->
  dict_lookup "values" d = None ->
  select_value interaction_payload = Raised KeyError.
Proof.
  intros Hd Hv. unfold select_value.
  rewrite !(data_field_dict _ _ _ Hd), Hv. reflexivity.
Qed.

(** C9. For a verified component interaction (type 3) with a registered
    custom id, once the lifecycle handlers have returned: a select menu
    whose ["values"] is the list [vs] has its handler called on exactly
    the interaction and that whole list as one argument; any other
    component has the button handler called on the interaction alone.  In
    both cases the handler's outcome is the outcome of the request. *)
Theorem component_handler_arguments (self : GatewayClient)
    (request : Request) (interaction_payload : value)
    (d : list (string * value)) (ct : value) (cid : string) :
  verified self request interaction_payload ->
  getitem interaction_payload "type" = Returned (VInt 3) ->
  getitem interaction_payload "data" = Returned (VDict d) ->
  dict_lookup "component_type" d = Some ct ->
  dict_lookup "custom_id" d = Some (VStr cid) ->
  all_return (events_or_empty self "interaction_receive")
    [Interaction interaction_payload] ->
  (forall h vs,
     in_ints ct [3; 4; 5; 6; 7; 8] = true ->
     dict_lookup "values" d = Some (VList vs) ->
     menus self !! cid = Some h ->
     all_return (events_or_empty self "menu_select")
       [Interaction interaction_payload] ->
     calls (trace (interaction self request))
     = lifecycle_calls "interaction_receive"
         (events_or_empty self "interaction_receive")
         [Interaction interaction_payload]
       ++ lifecycle_calls "menu_select"
            (events_or_empty self "menu_select")
            [Interaction interaction_payload]
       ++ [(MenuHandler, h, [Interaction interaction_payload; VList vs])]
     ∧ result (interaction self request)
       = invoke h [Interaction interaction_payload; VList vs])
  ∧ (forall h,
     in_ints ct [3; 4; 5; 6; 7; 8] = false ->
     buttons self !! cid = Some h ->
     all_return (events_or_empty self "button_click")
       [Interaction interaction_payload] ->
     calls (trace (interaction self request))
     = lifecycle_calls "interaction_receive"
         (events_or_empty self "interaction_receive")
         [Interaction interaction_payload]
       ++ lifecycle_calls "button_click"
            (events_or_empty self "button_click")
            [Interaction interaction_payload]
       ++ [(ButtonHandler, h, [Interaction interaction_payload])]
     ∧ result (interaction self request)
       = invoke h [Interaction interaction_payload]).
Proof.
  intros Hv Ht Hd Hct Hcid A1.
  destruct (interaction_verified_calls _ _ _ Hv) as [Hc Hr].
  rewrite Hc, Hr. split.
  - intros h vs Hin Hvs Hh A2.
    rewrite (process_menu _ _ _ _ _ Ht Hd Hct Hin Hcid), Hh, Hvs.
    rewrite (select_value_list _ _ _ Hd Hvs).
    rewrite bind_emit, bind_lift_Returned. simpl of_option.
    rewrite outcome_bind_Returned.
    unfold trace, result. cbn [fst snd].
    change (calls (EPrint (VDict d) :: ?t)) with (calls t).
    pose proof (routed_calls "interaction_receive" "menu_select"
                  (events_or_empty self "interaction_receive")
                  (events_or_empty self "menu_select")
                  [Interaction interaction_payload] MenuHandler h
                  (Returned [Interaction interaction_payload; VList vs])
                  _ eq_refl) as (_ & Hlive & _).
    exact (Hlive A1 A2 _ eq_refl).
  - intros h Hin Hh A2.
    rewrite (process_button _ _ _ _ _ Ht Hd Hct Hin Hcid), Hh.
    rewrite bind_emit. unfold trace, result. cbn [fst snd].
    change (calls (EPrint (VDict d) :: ?t)) with (calls t).
    pose proof (routed_calls "interaction_receive" "button_click"
                  (events_or_empty self "interaction_receive")
                  (events_or_empty self "button_click")
                  [Interaction interaction_payload] ButtonHandler h
                  (Returned [Interaction interaction_payload])
                  _ eq_refl) as (_ & Hlive & _).
    exact (Hlive A1 A2 _ eq_refl).
Qed.

(** C5, as the code has it.  For a verified select-menu interaction whose
    ["data"] carries a ["values"] entry, the extracted value is
    [values[0]] when the entry is truthy (the first element of a non-empty
    list) and [None] when it is falsy (an empty list, [null]).  Whenever
    the extraction succeeds the request is processed: an unregistered
    custom id gets the answer [{"type": 4, "data": {"content": "This menu
    is not registered with Interaction Gateway API.", "flags": 64}}] and
    no handler is called, a registered one has its handler called on the
    interaction and the ["values"] entry as it is, once the lifecycle
    handlers have returned.  When ["data"] has no ["values"] key the
    extraction raises [KeyError]: the request fails with it and no handler
    is called. *)
Theorem select_value_needs_values_key (self : GatewayClient)
    (request : Request) (interaction_payload : value)
    (d : list (string * value)) (ct : value) (cid : string) :
  verified self request interaction_payload ->
  getitem interaction_payload "type" = Returned (VInt 3) ->
  getitem interaction_payload "data" = Returned (VDict d) ->
  dict_lookup "component_type" d = Some ct ->
  in_ints ct [3; 4; 5; 6; 7; 8] = true ->
  dict_lookup "custom_id" d = Some (VStr cid) ->
  (forall vs, dict_lookup "values" d = Some vs ->
     select_value interaction_payload
     = (if truthy vs then getitem0 vs else Returned VNone)
     ∧ (forall l, vs = VList l ->
          select_value interaction_payload
          = Returned (default VNone (head l)))
     ∧ (forall v, select_value interaction_payload = Returned v ->
          (menus self !! cid = None ->
           result (interaction self request)
           = Returned
               (VDict [("type"%string, VInt 4);
                       ("data"%string,
                        VDict [("content"%string,
                                VStr "This menu is not registered with Interaction Gateway API.");
                               ("flags"%string, VInt 64)])])
           ∧ calls (trace (interaction self request)) = [])
          ∧ (forall h, menus self !! cid = Some h ->
             all_return (events_or_empty self "interaction_receive")
               [Interaction interaction_payload] ->
             all_return (events_or_empty self "menu_select")
               [Interaction interaction_payload] ->
             result (interaction self request)
             = invoke h [Interaction interaction_payload; vs]
             ∧ calls (trace (interaction self request))
               = lifecycle_calls "interaction_receive"
                   (events_or_empty self "interaction_receive")
                   [Interaction interaction_payload]
                 ++ lifecycle_calls "menu_select"
                      (events_or_empty self "menu_select")
                      [Interaction interaction_payload]
                 ++ [(MenuHandler, h,
                      [Interaction interaction_payload; vs])])))
  ∧ (dict_lookup "values" d = None ->
     select_value interaction_payload = Raised KeyError
     ∧ result (interaction self request) = Raised KeyError
     ∧ calls (trace (interaction self request)) = []).
Proof.
  intros Hv Ht Hd Hct Hin Hcid.
  destruct (interaction_verified_calls _ _ _ Hv) as [Hc Hr].
  rewrite Hc, Hr, (process_menu _ _ _ _ _ Ht Hd Hct Hin Hcid).
  split.
  - intros vs Hvs.
    assert (Hsel : select_value interaction_payload
                   = (if truthy vs then getitem0 vs else Returned VNone)).
    { unfold select_value. rewrite !(data_field_dict _ _ _ Hd), Hvs.
      simpl of_option. rewrite outcome_bind_Returned.
      destruct (truthy vs); [rewrite outcome_bind_Returned|]; reflexivity. }
    split; [exact Hsel|]. split.
    + intros l ->. exact (select_value_list _ _ _ Hd Hvs).
    + intros v Hret. rewrite Hret, bind_emit, bind_lift_Returned. split.
      * intros ->. split; reflexivity.
      * intros h Hh A1 A2. rewrite Hh, Hvs. simpl of_option.
        rewrite outcome_bind_Returned. unfold trace, result. cbn [fst snd].
        change (calls (EPrint (VDict d) :: ?t)) with (calls t).
        pose proof (routed_calls "interaction_receive" "menu_select"
                      (events_or_empty self "interaction_receive")
                      (events_or_empty self "menu_select")
                      [Interaction interaction_payload] MenuHandler h
                      (Returned [Interaction interaction_payload; vs])
                      _ eq_refl) as (_ & Hlive & _).
        destruct (Hlive A1 A2 _ eq_refl) as [Hcalls Hres].
        split; [exact Hres|exact Hcalls].
  - intros Hnone. rewrite (select_value_absent _ _ Hd Hnone).
    repeat split.
Qed.

(** ** Lifecycle registration *)

Lemma on_all_snoc (event : string) (fs : list Handler) (f : Handler)
    (self : GatewayClient) :
  on_all event (fs ++ [f]) self = on event f (on_all event fs self).
Proof. unfold on_all. rewrite foldl_app. reflexivity. Qed.

Lemma events_get_set (self : GatewayClient) (event : string)
    (s : slot Handler) (ev : gmap string (slot Handler)) :
  events_get (set_events self (<[event := s]> ev)) event = s.
Proof.
  unfold events_get, set_events. simpl. rewrite lookup_insert_eq.
  reflexivity.
Qed.

(** The first registration for an event stores a one-element list. *)
Lemma on_fresh (event : string) (f : Handler) (self : GatewayClient) :
  events_get self event = SNone ->
  events_get (on event f self) event = SList [f].
Proof.
  intros Hs. unfold on. rewrite Hs. apply events_get_set.
Qed.

(** A registration on top of a non-empty list stores [None]. *)
Lemma on_occupied (event : string) (f h : Handler) (t : list Handler)
    (self : GatewayClient) :
  events_get self event = SList (h :: t) ->
  events_get (on event f self) event = SNone.
Proof.
  intros Hs. unfold on. rewrite Hs. simpl. apply events_get_set.
Qed.

Lemma on_all_parity (event : string) (fs : list Handler)
    (self : GatewayClient) :
  events_get self event = SNone ->
  events_get (on_all event fs self) event
  = if Nat.odd (length fs) then SList (option_list (last fs)) else SNone.
Proof.
  intros Hs. induction fs as [|f fs IH] using rev_ind; [exact Hs|].
  rewrite on_all_snoc, length_app, last_snoc. simpl length.
  rewrite Nat.add_1_r, Nat.odd_succ, <- Nat.negb_odd.
  destruct (Nat.odd (length fs)) eqn:Hodd; simpl.
  - destruct (last fs) as [x|] eqn:Hlast.
    + exact (on_occupied _ _ _ _ _ IH).
    + apply last_None in Hlast. subst fs. discriminate.
  - exact (on_fresh _ _ _ IH).
Qed.

(** C3. Registration is not list-valued.  Starting from an event with no
    handler, registering the handlers [fs] in sequence leaves the registry
    with the last handler alone when their number is odd and with [None]
    when it is even; with two handlers or more it never holds them all.
    In particular after two registrations the slot is [None], the handler
    list used at dispatch is empty and the lifecycle loop calls nothing. *)
Theorem registration_keeps_at_most_one (event : string)
    (fs : list Handler) (self : GatewayClient) :
  events_get self event = SNone ->
  events_or_empty (on_all event fs self) event
  = (if Nat.odd (length fs) then option_list (last fs) else [])
  ∧ ((2 <= length fs)%nat ->
     events_or_empty (on_all event fs self) event ≠ fs)
  ∧ (forall f1 f2 args,
       fs = [f1; f2] ->
       events_get (on_all event fs self) event = SNone
       ∧ fire event (events_or_empty (on_all event fs self) event) args
         = mret tt).
Proof.
  intros Hs.
  assert (Hget := on_all_parity event fs self Hs).
  assert (Hl : events_or_empty (on_all event fs self) event
               = (if Nat.odd (length fs) then option_list (last fs)
                  else [])).
  { unfold events_or_empty. rewrite Hget.
    destruct (Nat.odd (length fs)); reflexivity. }
  split; [exact Hl|]. split.
  - intros Hlen Heq. rewrite Hl in Heq.
    assert (Hle : (length fs <= 1)%nat).
    { rewrite <- Heq. destruct (Nat.odd (length fs)); [|simpl; lia].
      destruct (last fs); simpl; lia. }
    lia.
  - intros f1 f2 args ->. split.
    + rewrite Hget. reflexivity.
    + rewrite Hl. reflexivity.
Qed.

End Facts.
End GatewayFacts.

(** ** The theorems on the sample deployment *)

Import Gateway.
#[local] Existing Instance Sample.signing.

Ltac by_run := vm_compute; reflexivity.

Ltac returns_all :=
  unfold all_return;
  match goal with
  | |- Forall _ ?l =>
    let l' := eval vm_compute in l in
    replace l with l' by by_run
  end;
  repeat constructor; eexists; reflexivity.

Lemma sample_key_ready (self : GatewayClient string) :
  public_key self = public_key Sample.empty_client ->
  key_ready self Sample.key.
Proof.
  intros Hpk. exists Sample.key. rewrite Hpk. split; by_run.
Defined.

Lemma sample_verified (raw : string) (interaction_payload : value) :
  result (verify_request Sample.client (Sample.signed raw)) = Returned None ->
  Sample.json_loads (Codec.bytes_of_string raw) = Some interaction_payload ->
  verified Sample.json_loads Sample.client (Sample.signed raw)
    interaction_payload.
Proof. intros Hv Hj. split; assumption. Defined.

(** C6, counterexample.  On a client whose public key is not
    hexadecimal, a request without the timestamp header is not answered
    with 401: building the verify key (line 231) fails first, with
    [ValueError]. *)
Lemma missing_headers_on_unusable_key :
  headers_get (Sample.unstamped "ping") "X-Signature-Timestamp" = None
  ∧ Sample.run Sample2.keyless_client (Sample.unstamped "ping")
    = ([], Raised ValueError)
  ∧ result (Sample.run Sample2.keyless_client (Sample.unstamped "ping"))
    ≠ Raised (HTTPException 401 "missing request signature")
  ∧ status_code (respond (result
      (Sample.run Sample2.keyless_client (Sample.unstamped "ping")))) = 500.
Proof.
  repeat split; try by_run. vm_compute. discriminate.
Qed.

Lemma missing_signature_unauthorized_witness :
  Sample.run Sample.client (Sample.unstamped "ping")
  = ([], Raised (HTTPException 401 "missing request signature"))
  ∧ status_code (respond (result
      (Sample.run Sample.client (Sample.unstamped "ping")))) = 401.
Proof.
  destruct (GatewayFacts.missing_signature_unauthorized
              Sample.invoke Sample.json_loads Sample.client
              (Sample.unstamped "ping")) as [Ht Hr].
  - right. by_run.
  - destruct (Hr Sample.key (sample_key_ready _ eq_refl)) as [Hres Hresp].
    unfold Sample.run. split.
    + destruct (interaction _ _ _ _) as [t r]. unfold trace, result in *.
      simpl in *. rewrite Ht, Hres. reflexivity.
    + rewrite Hresp. reflexivity.
Defined.

Lemma invalid_signature_is_returned_witness :
  result (Sample.run Sample.client (Sample.forged "ping"))
  = Returned (VException (HTTPException 401 "invalid request signature"))
  ∧ status_code (respond (result
      (Sample.run Sample.client (Sample.forged "ping")))) = 200.
Proof.
  pose proof (GatewayFacts.invalid_signature_is_returned
                Sample.invoke Sample.json_loads Sample.client
                (Sample.forged "ping") Sample.key
                Sample.forged_signature Sample.timestamp
                (default [] (Codec.utf8_decode (Codec.bytes_of_string "ping")))
                (Codec.bytes_of_string (Sample.timestamp ++ "ping"))
                (default [] (Codec.fromhex Sample.forged_signature))
                (sample_key_ready _ eq_refl)) as Hthm.
  destruct Hthm as (Hrun & _ & Hstatus); try by_run; try discriminate.
  unfold Sample.run. rewrite Hrun. split; reflexivity.
Defined.

Lemma signed_message_is_timestamp_then_body_witness :
  Sample.run Sample.client Sample.undecodable
  = ([EBody], Raised UnicodeDecodeError)
  ∧ trace (verify_request Sample.client (Sample.signed "ping"))
    = [EBody;
       EVerify Sample.key
         (Codec.bytes_of_string Sample.timestamp
          ++ Codec.bytes_of_string "ping")
         (Sample.sign (Codec.bytes_of_string (Sample.timestamp ++ "ping")))].
Proof.
  split.
  - apply (GatewayFacts.signed_message_is_timestamp_then_body
             Sample.invoke Sample.json_loads Sample.client
             Sample.undecodable Sample.key
             Sample.forged_signature Sample.timestamp
             (sample_key_ready _ eq_refl));
      try by_run; discriminate.
  - assert (Hs : headers_get (Sample.signed "ping") "X-Signature-Ed25519"
                 = Some (Sample.hex (Sample.sign
                     (Codec.bytes_of_string (Sample.timestamp ++ "ping")))))
      by by_run.
    assert (Ht : headers_get (Sample.signed "ping") "X-Signature-Timestamp"
                 = Some Sample.timestamp) by by_run.
    assert (Hse : Sample.hex (Sample.sign
                    (Codec.bytes_of_string (Sample.timestamp ++ "ping")))
                  ≠ ""%string) by (vm_compute; discriminate).
    assert (Hte : Sample.timestamp ≠ ""%string) by discriminate.
    destruct (GatewayFacts.signed_message_is_timestamp_then_body
                Sample.invoke Sample.json_loads Sample.client
                (Sample.signed "ping") Sample.key _ _
                (sample_key_ready _ eq_refl) Hs Ht Hse Hte) as [_ Hvalid].
    destruct (Hvalid (default [] (Codec.utf8_decode
                                   (Codec.bytes_of_string "ping"))))
      as (stamp & Hstamp & _ & Hsig); [by_run|].
    assert (stamp = Codec.bytes_of_string Sample.timestamp) as ->.
    { assert (Hst : Codec.utf8_encode (Codec.str_of_header Sample.timestamp)
                    = Some (Codec.bytes_of_string Sample.timestamp))
        by by_run.
      congruence. }
    assert (Hhex : Codec.fromhex
                     (Sample.hex (Sample.sign
                        (Codec.bytes_of_string (Sample.timestamp ++ "ping"))))
                   = Some (Sample.sign
                        (Codec.bytes_of_string (Sample.timestamp ++ "ping"))))
      by by_run.
    rewrite Hhex in Hsig. exact Hsig.
Defined.

Lemma ping_short_circuit_witness :
  result (Sample.run Sample.client (Sample.signed "ping"))
  = Returned (VDict [("type"%string, VInt 1)])
  ∧ calls (trace (Sample.run Sample.client (Sample.signed "ping"))) = []
  ∧ Sample.run Sample.empty_client (Sample.signed "ping")
    = Sample.run Sample.client (Sample.signed "ping").
Proof.
  destruct (GatewayFacts.ping_short_circuit
              Sample.invoke Sample.json_loads Sample.client
              (Sample.signed "ping") Sample.ping_payload (VInt 1))
    as (Hres & Hcalls & Hany).
  - apply sample_verified; by_run.
  - reflexivity.
  - reflexivity.
  - split; [exact Hres|]. split; [exact Hcalls|].
    exact (Hany ∅ ∅ ∅ ∅).
Defined.

Lemma unknown_type_is_not_rejected_witness :
  result (Sample.run Sample.client (Sample.signed "unknown"))
  = Returned
      (VDict [("type"%string, VInt 4);
              ("data"%string,
               VDict [("content"%string,
                       VStr "This interaction is not yet supported by Interaction Gateway API.");
                      ("flags"%string, VInt 64)])])
  ∧ status_code (respond (result
      (Sample.run Sample.client (Sample.signed "unknown")))) = 200.
Proof.
  destruct (GatewayFacts.unknown_type_is_not_rejected
              Sample.invoke Sample.json_loads Sample.client
              (Sample.signed "unknown") Sample.unknown_payload 99)
    as (Hres & _ & Hstatus).
  - apply sample_verified; by_run.
  - reflexivity.
  - lia.
  - lia.
  - lia.
  - split; [exact Hres|exact Hstatus].
Defined.


Lemma command_lifecycle_order_witness :
  result (Sample.run Sample.empty_client (Sample.signed "cmd"))
  = Returned
      (VDict [("type"%string, VInt 4);
              ("data"%string,
               VDict [("content"%string,
                       VStr "This command is not registered with Interaction Gateway API.");
                      ("flags"%string, VInt 64)])])
  ∧ calls (trace (Sample.run Sample.empty_client (Sample.signed "cmd"))) = []
  ∧ calls (trace (Sample.run Sample.client (Sample.signed "cmd")))
    = [(Lifecycle "interaction_receive", "log_any"%string,
        [Interaction (Sample.command_payload [])]);
       (Lifecycle "command_receive", "log_command"%string,
        [Interaction (Sample.command_payload [])]);
       (CommandHandler, "on_greet"%string,
        [Interaction (Sample.command_payload [])])]
  ∧ result (Sample.run Sample.client (Sample.signed "cmd"))
    = Sample.invoke "on_greet" [Interaction (Sample.command_payload [])].
Proof.
  assert (Hv0 : verified Sample.json_loads Sample.empty_client
                  (Sample.signed "cmd") (Sample.command_payload []))
    by (split; by_run).
  destruct (GatewayFacts.command_lifecycle_order
              Sample.invoke Sample.json_loads Sample.empty_client
              (Sample.signed "cmd") (Sample.command_payload [])
              (Sample.command_data []) "greet"
              Hv0 eq_refl eq_refl eq_refl) as [Hunreg _].
  destruct (Hunreg ltac:(by_run)) as [Hres0 Hcalls0].
  assert (Hv : verified Sample.json_loads Sample.client (Sample.signed "cmd")
                 (Sample.command_payload []))
    by (apply sample_verified; by_run).
  destruct (GatewayFacts.command_lifecycle_order
              Sample.invoke Sample.json_loads Sample.client
              (Sample.signed "cmd") (Sample.command_payload [])
              (Sample.command_data []) "greet"
              Hv eq_refl eq_refl eq_refl) as [_ Hreg].
  assert (Hh : commands Sample.client !! "greet"%string
               = Some "on_greet"%string) by by_run.
  destruct (Hreg _ Hh) as [_ Hlive].
  destruct (Hlive ltac:(returns_all) ltac:(returns_all)
              [Interaction (Sample.command_payload [])] eq_refl)
    as [Hcalls Hres].
  split; [exact Hres0|]. split; [exact Hcalls0|].
  unfold Sample.run. rewrite Hcalls, Hres. split; by_run.
Defined.

Lemma option_values_raise_type_error_witness :
  result (Sample.run Sample.client (Sample.signed "cmd-ab"))
  = Raised TypeError
  ∧ calls (trace (Sample.run Sample.client (Sample.signed "cmd-ab")))
    = [(Lifecycle "interaction_receive", "log_any"%string,
        [Interaction (Sample.command_payload Sample.ab_options)]);
       (Lifecycle "command_receive", "log_command"%string,
        [Interaction (Sample.command_payload Sample.ab_options)])].
Proof.
  assert (Hv : verified Sample.json_loads Sample.client
                 (Sample.signed "cmd-ab")
                 (Sample.command_payload Sample.ab_options))
    by (apply sample_verified; by_run).
  assert (Hh : commands Sample.client !! "greet"%string
               = Some "on_greet"%string) by by_run.
  destruct (GatewayFacts.option_values_raise_type_error
              Sample.invoke Sample.json_loads Sample.client
              (Sample.signed "cmd-ab")
              (Sample.command_payload Sample.ab_options)
              (Sample.command_data Sample.ab_options) "greet" "on_greet"
              (VDict [("name"%string, VStr "first");
                      ("value"%string, VStr "a")])
              (VStr "a")
              [VDict [("name"%string, VStr "second");
                      ("value"%string, VStr "b")]]
              Hv eq_refl eq_refl eq_refl Hh eq_refl eq_refl
              ltac:(discriminate)) as (_ & _ & Hfail).
  destruct (Hfail ltac:(returns_all) ltac:(returns_all)) as [Hcalls Hres].
  unfold Sample.run. rewrite Hcalls, Hres. split; by_run.
Defined.

Lemma component_handler_arguments_witness :
  calls (trace (Sample.run Sample.client (Sample.signed "menu")))
  = [(Lifecycle "interaction_receive", "log_any"%string,
      [Interaction Sample.menu_payload]);
     (Lifecycle "menu_select", "log_menu"%string,
      [Interaction Sample.menu_payload]);
     (MenuHandler, "on_menu"%string,
      [Interaction Sample.menu_payload; VList [VStr "x"; VStr "y"]])]
  ∧ calls (trace (Sample.run Sample.client (Sample.signed "button")))
    = [(Lifecycle "interaction_receive", "log_any"%string,
        [Interaction Sample.button_payload]);
       (Lifecycle "button_click", "log_button"%string,
        [Interaction Sample.button_payload]);
       (ButtonHandler, "on_button"%string,
        [Interaction Sample.button_payload])].
Proof.
  split.
  - assert (Hv : verified Sample.json_loads Sample.client
                   (Sample.signed "menu") Sample.menu_payload)
      by (apply sample_verified; by_run).
    destruct (GatewayFacts.component_handler_arguments
                Sample.invoke Sample.json_loads Sample.client
                (Sample.signed "menu") Sample.menu_payload
                Sample.menu_data (VInt 3) "menu1"
                Hv eq_refl eq_refl eq_refl eq_refl ltac:(returns_all))
      as [Hmenu _].
    assert (Hh : menus Sample.client !! "menu1"%string
                 = Some "on_menu"%string) by by_run.
    destruct (Hmenu "on_menu"%string [VStr "x"; VStr "y"]
                eq_refl eq_refl Hh ltac:(returns_all)) as [Hcalls _].
    unfold Sample.run. rewrite Hcalls. by_run.
  - assert (Hv : verified Sample.json_loads Sample.client
                   (Sample.signed "button") Sample.button_payload)
      by (apply sample_verified; by_run).
    destruct (GatewayFacts.component_handler_arguments
                Sample.invoke Sample.json_loads Sample.client
                (Sample.signed "button") Sample.button_payload
                Sample.button_data (VInt 2) "button1"
                Hv eq_refl eq_refl eq_refl eq_refl ltac:(returns_all))
      as [_ Hbutton].
    assert (Hh : buttons Sample.client !! "button1"%string
                 = Some "on_button"%string) by by_run.
    destruct (Hbutton "on_button"%string eq_refl Hh ltac:(returns_all))
      as [Hcalls _].
    unfold Sample.run. rewrite Hcalls. by_run.
Defined.

(** C5, counterexample.  A verified select-menu interaction whose
    ["data"] has no ["values"] key: the extraction does not yield [None],
    it raises [KeyError]; the request is not processed and the registered
    menu handler is not called. *)
Lemma select_menu_without_values_aborts :
  verified Sample.json_loads Sample.client (Sample.signed "menu-no-values")
    Sample.menu_payload_no_values
  ∧ getitem Sample.menu_payload_no_values "type" = Returned (VInt 3)
  ∧ data_field Sample.menu_payload_no_values "component_type"
    = Returned (VInt 3)
  ∧ menus Sample.client !! "menu1"%string = Some "on_menu"%string
  ∧ select_value Sample.menu_payload_no_values ≠ Returned VNone
  ∧ select_value Sample.menu_payload_no_values = Raised KeyError
  ∧ Sample.run Sample.client (Sample.signed "menu-no-values")
    = (trace (verify_request Sample.client (Sample.signed "menu-no-values"))
         ++ [EJson; EPrint (VDict Sample.menu_data_no_values)],
       Raised KeyError).
Proof.
  split; [apply sample_verified; by_run|].
  repeat split; try by_run. discriminate.
Qed.

Lemma select_value_needs_values_key_witness :
  select_value Sample.menu_payload = Returned (VStr "x")
  ∧ result (Sample.run Sample.client (Sample.signed "menu"))
    = Sample.invoke "on_menu"
        [Interaction Sample.menu_payload; VList [VStr "x"; VStr "y"]]
  ∧ select_value Sample2.menu_null_payload = Returned VNone
  ∧ result (Sample2.run Sample.client (Sample.signed "menu-null"))
    = Sample.invoke "on_menu" [Interaction Sample2.menu_null_payload; VNone]
  ∧ result (Sample.run Sample.empty_client (Sample.signed "menu"))
    = Returned
        (VDict [("type"%string, VInt 4);
                ("data"%string,
                 VDict [("content"%string,
                         VStr "This menu is not registered with Interaction Gateway API.");
                        ("flags"%string, VInt 64)])])
  ∧ result (Sample.run Sample.client (Sample.signed "menu-no-values"))
    = Raised KeyError.
Proof.
  assert (Hv : verified Sample.json_loads Sample.client
                 (Sample.signed "menu") Sample.menu_payload)
    by (apply sample_verified; by_run).
  assert (Hv0 : verified Sample.json_loads Sample.empty_client
                  (Sample.signed "menu") Sample.menu_payload)
    by (split; by_run).
  assert (Hvn : verified Sample2.json_loads Sample.client
                  (Sample.signed "menu-null") Sample2.menu_null_payload)
    by (split; by_run).
  assert (Hv' : verified Sample.json_loads Sample.client
                  (Sample.signed "menu-no-values")
                  Sample.menu_payload_no_values)
    by (apply sample_verified; by_run).
  assert (Hh : menus Sample.client !! "menu1"%string
               = Some "on_menu"%string) by by_run.
  destruct (GatewayFacts.select_value_needs_values_key
              Sample.invoke Sample.json_loads Sample.client
              (Sample.signed "menu") Sample.menu_payload
              Sample.menu_data (VInt 3) "menu1"
              Hv eq_refl eq_refl eq_refl eq_refl eq_refl) as [Hpresent _].
  destruct (Hpresent (VList [VStr "x"; VStr "y"]) eq_refl)
    as (_ & Hlist & Hproc).
  pose proof (Hlist _ eq_refl) as Hval. simpl in Hval.
  destruct (Hproc _ Hval) as [_ Hreg].
  destruct (GatewayFacts.select_value_needs_values_key
              Sample.invoke Sample2.json_loads Sample.client
              (Sample.signed "menu-null") Sample2.menu_null_payload
              Sample2.menu_null_data (VInt 3) "menu1"
              Hvn eq_refl eq_refl eq_refl eq_refl eq_refl) as [Hnull _].
  destruct (Hnull VNone eq_refl) as (Hvaln & _ & Hprocn).
  simpl in Hvaln.
  destruct (Hprocn _ Hvaln) as [_ Hregn].
  destruct (GatewayFacts.select_value_needs_values_key
              Sample.invoke Sample.json_loads Sample.empty_client
              (Sample.signed "menu") Sample.menu_payload
              Sample.menu_data (VInt 3) "menu1"
              Hv0 eq_refl eq_refl eq_refl eq_refl eq_refl) as [Hfresh _].
  destruct (Hfresh (VList [VStr "x"; VStr "y"]) eq_refl) as (_ & _ & Hproc0).
  destruct (Hproc0 _ Hval) as [Hunreg _].
  destruct (GatewayFacts.select_value_needs_values_key
              Sample.invoke Sample.json_loads Sample.client
              (Sample.signed "menu-no-values") Sample.menu_payload_no_values
              Sample.menu_data_no_values (VInt 3) "menu1"
              Hv' eq_refl eq_refl eq_refl eq_refl eq_refl) as [_ Habsent].
  destruct (Habsent eq_refl) as (_ & Hres & _).
  split; [exact Hval|].
  split; [exact (proj1 (Hreg _ Hh ltac:(returns_all) ltac:(returns_all)))|].
  split; [exact Hvaln|].
  split; [exact (proj1 (Hregn _ Hh ltac:(returns_all) ltac:(returns_all)))|].
  split; [exact (proj1 (Hunreg ltac:(by_run)))|exact Hres].
Defined.

Lemma registration_keeps_at_most_one_witness :
  events_get (on_all "interaction_receive" ["first"; "second"]%string
                Sample.empty_client) "interaction_receive"
  = SNone
  ∧ events_or_empty
      (on_all "interaction_receive" ["first"; "second"; "third"]%string
         Sample.empty_client) "interaction_receive"
    = ["third"%string]
  ∧ fire Sample.invoke "interaction_receive"
      (events_or_empty
         (on_all "interaction_receive" ["first"; "second"]%string
            Sample.empty_client) "interaction_receive")
      [Interaction Sample.ping_payload]
    = mret tt.
Proof.
  destruct (GatewayFacts.registration_keeps_at_most_one Sample.invoke
              "interaction_receive" ["first"; "second"]%string
              Sample.empty_client eq_refl) as (_ & _ & Htwo).
  destruct (GatewayFacts.registration_keeps_at_most_one Sample.invoke
              "interaction_receive" ["first"; "second"; "third"]%string
              Sample.empty_client eq_refl) as (Hthree & _ & _).
  destruct (Htwo "first"%string "second"%string
              [Interaction Sample.ping_payload] eq_refl) as [Hnone Hfire].
  split; [exact Hnone|]. split; [exact Hthree|exact Hfire].
Defined.

(** * Further properties of the endpoint *)

Module Extras.
Import Gateway GatewayFacts.

Section Endpoint.
Context {Handler : Type}.
Variable invoke : Handler -> list value -> outcome value.
Context `{Signing}.
Variable json_loads : list byte -> option value.

Local Abbreviation fire := (fire invoke).
Local Abbreviation process_request := (process_request invoke).
Local Abbreviation interaction := (interaction invoke json_loads).
Local Abbreviation verified := (verified json_loads).
Local Abbreviation all_return := (all_return invoke).
Local Abbreviation effect := (effect Handler).
Local Abbreviation GatewayClient := (GatewayClient Handler).

Ltac next :=
  first [ rewrite bind_lift_Returned | rewrite bind_lift_Raised
        | rewrite bind_emit | rewrite bind_mret
        | rewrite bind_Returned | rewrite bind_Raised ];
  cbv beta.

(** ** Verification *)

(** The effects of the verification phase: nothing, the body read, or the
    body read and one verification. *)
Lemma verify_request_trace (self : GatewayClient) (request : Request) :
  trace (verify_request self request) = []
  ∨ trace (verify_request self request) = [EBody]
  ∨ (exists k message signature,
        trace (verify_request self request)
        = [EBody; EVerify k message signature]).
Proof.
  unfold verify_request.
  destruct (Codec.fromhex (public_key self)) as [kb|]; [|left; reflexivity].
  simpl of_option. rewrite bind_lift_Returned.
  destruct (VerifyKey kb) as [k|]; [|left; reflexivity].
  simpl of_option. rewrite bind_lift_Returned.
  destruct (headers_get request "X-Signature-Ed25519") as [s|];
    [|left; reflexivity].
  destruct (headers_get request "X-Signature-Timestamp") as [t|];
    [|left; reflexivity].
  destruct (negb _ || negb _); [left; reflexivity|].
  rewrite bind_emit.
  destruct (Codec.utf8_decode (body request)) as [text|];
    [|right; left; reflexivity].
  simpl of_option. rewrite bind_lift_Returned.
  destruct (Codec.utf8_encode _) as [message|]; [|right; left; reflexivity].
  simpl of_option. rewrite bind_lift_Returned.
  destruct (Codec.fromhex s) as [sg|]; [|right; left; reflexivity].
  simpl of_option. rewrite bind_lift_Returned, bind_emit.
  right; right. exists k, message, sg.
  destruct (verify k message sg) as [m|[]]; reflexivity.
Qed.

(** X1. Unless the verification phase completes with a valid signature,
    the endpoint does nothing more than that phase: the body is not
    decoded as JSON and no handler is called. *)
Theorem unverified_request_reaches_nothing (self : GatewayClient)
    (request : Request) :
  result (verify_request self request) ≠ Returned None ->
  trace (interaction self request) = trace (verify_request self request)
  ∧ (EJson ∉ trace (interaction self request))
  ∧ calls (trace (interaction self request)) = [].
Proof.
  intros Hv.
  assert (Ht : trace (interaction self request)
               = trace (verify_request self request)).
  { unfold interaction, Gateway.interaction.
    destruct (verify_request self request) as [t [[v|]|e]].
    - rewrite bind_Returned. unfold trace. simpl. apply app_nil_r.
    - destruct (Hv eq_refl).
    - reflexivity. }
  rewrite Ht. split; [reflexivity|]. split.
  - destruct (verify_request_trace self request)
      as [-> | [-> | (k & m & s & ->)]].
    + apply not_elem_of_nil.
    + intros Hin. apply list_elem_of_singleton in Hin. discriminate.
    + intros Hin. apply elem_of_cons in Hin as [Hin|Hin]; [discriminate|].
      apply list_elem_of_singleton in Hin. discriminate.
  - apply verify_request_calls.
Qed.

(** X2. With a usable key, both headers present and a body that is valid
    UTF-8, a signature header that is not hexadecimal makes the endpoint
    raise [ValueError] right after reading the body: the signing library
    is not called and the answer is not the 401 of an invalid signature. *)
Theorem malformed_signature_is_a_value_error (self : GatewayClient)
    (request : Request) (k : list byte) (s t : string) (text : list Z) :
  key_ready self k ->
  headers_get request "X-Signature-Ed25519" = Some s ->
  headers_get request "X-Signature-Timestamp" = Some t ->
  s ≠ ""%string -> t ≠ ""%string ->
  Codec.utf8_decode (body request) = Some text ->
  Codec.fromhex s = None ->
  interaction self request = ([EBody], Raised ValueError).
Proof.
  intros Hk Hs Ht Hse Hte Hdec Hhex.
  destruct (CodecFacts.utf8_encode_header t) as [stamp Hstamp].
  pose proof (CodecFacts.utf8_encode_app _ _ _ _ Hstamp
                (CodecFacts.utf8_encode_decode _ _ Hdec)) as Henc.
  unfold interaction, Gateway.interaction.
  rewrite (verify_request_ready _ _ _ _ _ Hk Hs Ht Hse Hte).
  rewrite Hdec. simpl of_option. rewrite bind_lift_Returned, Henc.
  simpl of_option. rewrite bind_lift_Returned, Hhex. reflexivity.
Qed.

(** X3. When the configured public key is not hexadecimal, or no
    [VerifyKey] can be built from it, every request fails with
    [ValueError] before anything is looked at: even a request without
    signature headers is not answered with 401. *)
Theorem unusable_key_fails_every_request (self : GatewayClient)
    (request : Request) :
  match Codec.fromhex (public_key self) with
  | Some key_bytes => VerifyKey key_bytes = None
  | None => True
  end ->
  interaction self request = ([], Raised ValueError).
Proof.
  intros Hkey. unfold interaction, Gateway.interaction, verify_request.
  destruct (Codec.fromhex (public_key self)) as [kb|]; [|reflexivity].
  simpl of_option. rewrite bind_lift_Returned, Hkey. reflexivity.
Qed.

(** X4. Only [BadSignatureError] is caught around the verification: any
    other exception of the signing library (a signature of the wrong
    size, say) leaves the endpoint as it is, after the body was read and
    the verification attempted. *)
Theorem other_verification_errors_propagate (self : GatewayClient)
    (request : Request) (k : list byte) (s t : string) (text : list Z)
    (sg : list byte) (e : exn) :
  key_ready self k ->
  headers_get request "X-Signature-Ed25519" = Some s ->
  headers_get request "X-Signature-Timestamp" = Some t ->
  s ≠ ""%string -> t ≠ ""%string ->
  Codec.utf8_decode (body request) = Some text ->
  Codec.fromhex s = Some sg ->
  (forall stamp, Codec.utf8_encode (Codec.str_of_header t) = Some stamp ->
     verify k (stamp ++ body request) sg = Raised e) ->
  e ≠ BadSignatureError ->
  exists stamp,
    Codec.utf8_encode (Codec.str_of_header t) = Some stamp
    ∧ interaction self request
      = ([EBody; EVerify k (stamp ++ body request) sg], Raised e).
Proof.
  intros Hk Hs Ht Hse Hte Hdec Hhex Hver Hne.
  destruct (CodecFacts.utf8_encode_header t) as [stamp Hstamp].
  pose proof (CodecFacts.utf8_encode_app _ _ _ _ Hstamp
                (CodecFacts.utf8_encode_decode _ _ Hdec)) as Henc.
  exists stamp. split; [exact Hstamp|].
  unfold interaction, Gateway.interaction.
  rewrite (verify_request_ready _ _ _ _ _ Hk Hs Ht Hse Hte).
  rewrite Hdec. simpl of_option. rewrite bind_lift_Returned, Henc.
  simpl of_option. rewrite bind_lift_Returned, Hhex.
  simpl of_option. rewrite bind_lift_Returned, (Hver _ Hstamp).
  destruct e; try reflexivity. destruct (Hne eq_refl).
Qed.

(** X5. A request with a valid signature whose body is not JSON raises
    the decoding error; the decoding is the last effect and no handler is
    called. *)
Theorem undecodable_json_raises (self : GatewayClient) (request : Request) :
  result (verify_request self request) = Returned None ->
  json_loads (body request) = None ->
  interaction self request
  = (trace (verify_request self request) ++ [EJson], Raised JSONDecodeError)
  ∧ calls (trace (interaction self request)) = [].
Proof.
  intros Hv Hj.
  assert (Hrun : interaction self request
                 = (trace (verify_request self request) ++ [EJson],
                    Raised JSONDecodeError)).
  { unfold interaction, Gateway.interaction.
    destruct (verify_request self request) as [t r]. unfold result in Hv.
    simpl in Hv. subst r. rewrite bind_Returned, bind_emit, Hj.
    reflexivity. }
  split; [exact Hrun|]. rewrite Hrun. unfold trace at 1. cbn [fst].
  rewrite calls_app, verify_request_calls. reflexivity.
Qed.

(** ** Dispatch on malformed payloads *)

(** X6. A verified payload that is not a JSON object makes the endpoint
    raise [TypeError], and an object without a ["type"] key makes it raise
    [KeyError]; no handler is called in either case. *)
Theorem payload_without_type_raises (self : GatewayClient)
    (request : Request) (interaction_payload : value) :
  verified self request interaction_payload ->
  match interaction_payload with
  | VDict p => dict_lookup "type" p = None
  | _ => True
  end ->
  result (interaction self request)
  = Raised (match interaction_payload with
            | VDict _ => KeyError
            | _ => TypeError
            end)
  ∧ calls (trace (interaction self request)) = [].
Proof.
  intros Hv Hshape.
  destruct (interaction_verified_calls invoke json_loads _ _ _ Hv) as [Hc Hr].
  rewrite Hc, Hr. unfold process_request, Gateway.process_request.
  destruct interaction_payload; try (split; reflexivity).
  simpl getitem. rewrite Hshape. split; reflexivity.
Qed.

(** X7. A verified payload whose ["type"] is not a number (a string,
    [null], a list, an object) is not rejected with 400 either: the
    comparison of line 330 raises [TypeError] and no handler is called. *)
Theorem non_numeric_type_raises (self : GatewayClient) (request : Request)
    (interaction_payload t : value) :
  verified self request interaction_payload ->
  getitem interaction_payload "type" = Returned t ->
  number_of t = None ->
  result (interaction self request) = Raised TypeError
  ∧ calls (trace (interaction self request)) = [].
Proof.
  intros Hv Ht Hint.
  destruct (interaction_verified_calls invoke json_loads _ _ _ Hv) as [Hc Hr].
  rewrite Hc, Hr. unfold process_request, Gateway.process_request.
  assert (He : forall n, eq_int t n = false)
    by (intros n; unfold eq_int; rewrite Hint; reflexivity).
  assert (Hg : ge_int t 4 = Raised TypeError)
    by (unfold ge_int; rewrite Hint; reflexivity).
  rewrite Ht. next. rewrite He. next. rewrite He. next. rewrite He. next.
  rewrite Hg. split; reflexivity.
Qed.

(** ** The HTTP errors of the endpoint *)

Local Abbreviation quiet o :=
  (forall status detail, o ≠ Raised (HTTPException status detail)).

Lemma quiet_of_option {A : Type} (e : exn) (o : option A) :
  (forall status detail, e ≠ HTTPException status detail) ->
  quiet (of_option e o).
Proof. intros He s d. destruct o; simpl; [discriminate|]. intros [= Heq]. exact (He _ _ Heq). Qed.












Lemma quiet_bind_lift {A B : Type} (o : outcome A)
    (f : A -> M effect B) :
  quiet o ->
  (forall a, o = Returned a -> quiet (result (f a))) ->
  quiet (result (lift o ≫= f)).
Proof.
  intros Ho Hf s d. destruct o as [a|e].
  - rewrite bind_lift_Returned. apply Hf. reflexivity.
  - rewrite bind_lift_Raised. unfold result, raise. simpl.
    intros Heq. injection Heq as ->. exact (Ho s d eq_refl).
Qed.

Lemma quiet_bind {A B : Type} (m : M effect A) (f : A -> M effect B) :
  quiet (result m) ->
  (forall a, quiet (result (f a))) ->
  quiet (result (m ≫= f)).
Proof.
  intros Hm Hf s d. destruct m as [t [a|e]].
  - rewrite bind_Returned. apply Hf.
  - rewrite bind_Raised. unfold result in *. simpl in *.
    intros Heq. injection Heq as ->. exact (Hm s d eq_refl).
Qed.


Section Quiet.
Hypothesis handlers_quiet : forall h args, quiet (invoke h args).



(** An [HTTPException] out of [m] is the 400 of line 340, and the type of
    the payload is [NaN]. *)
Local Abbreviation nan_only p m :=
  (forall status detail,
     result m = Raised (HTTPException status detail) ->
     status = 400
     ∧ detail = "Interaction not recognised by Interaction Gateway API."%string
     ∧ getitem p "type" = Returned (VFloat FNaN)).





Hypothesis verify_quiet : forall k message sg, quiet (verify k message sg).



End Quiet.

(** ** Lifecycle handlers that fail *)

(** When a handler of the list raises, the loop stops there: the handlers
    before it and the failing one have been called, the others not. *)
Lemma fire_failure (event : string) (pre post : list Handler) (h : Handler)
    (args : list value) (e : exn) :
  all_return pre args ->
  invoke h args = Raised e ->
  fire event (pre ++ h :: post) args
  = ((fun h => ECall (Lifecycle event) h args) <$> (pre ++ [h]), Raised e).
Proof.
  intros Hpre Hh. induction Hpre as [|g pre [v Hv] _ IH].
  - simpl app. rewrite fire_cons, Hh. reflexivity.
  - change ((g :: pre) ++ h :: post) with (g :: (pre ++ h :: post)).
    rewrite fire_cons, Hv, IH. reflexivity.
Qed.

(** X9. A verified command request for a registered name: when an
    [interaction_receive] handler raises, the request fails with that
    exception; the handlers registered before it and the failing one are
    the only ones called, so neither the later ones, nor the
    [command_receive] handlers, nor the command handler run. *)
Theorem lifecycle_failure_aborts_command (self : GatewayClient)
    (request : Request) (interaction_payload : value)
    (d : list (string * value)) (name : string) (h failing : Handler)
    (pre post : list Handler) (e : exn) :
  verified self request interaction_payload ->
  getitem interaction_payload "type" = Returned (VInt 2) ->
  getitem interaction_payload "data" = Returned (VDict d) ->
  dict_lookup "name" d = Some (VStr name) ->
  commands self !! name = Some h ->
  events_or_empty self "interaction_receive" = pre ++ failing :: post ->
  all_return pre [Interaction interaction_payload] ->
  invoke failing [Interaction interaction_payload] = Raised e ->
  result (interaction self request) = Raised e
  ∧ calls (trace (interaction self request))
    = lifecycle_calls "interaction_receive" (pre ++ [failing])
        [Interaction interaction_payload].
Proof.
  intros Hv Ht Hd Hn Hh Hev Hpre Hfail.
  destruct (interaction_verified_calls invoke json_loads _ _ _ Hv)
    as [Hc Hr].
  rewrite Hc, Hr.
  rewrite (process_command_registered _ _ _ _ _ _ Ht Hd Hn Hh).
  rewrite bind_emit, Hev, (fire_failure _ _ _ _ _ _ Hpre Hfail).
  rewrite bind_Raised. unfold trace, result. cbn [fst snd].
  split; [reflexivity|].
  change (calls (EPrintEvents (events self) :: ?t)) with (calls t).
  apply calls_lifecycle_trace.
Qed.

(** ** Routing of components *)

(** X10. Buttons and menus are looked up in separate registries, chosen by
    the component type alone.  A verified select-menu interaction that
    carries a ["values"] list and whose custom id is not a registered menu
    gets [{"type": 4, "data": {"content": "This menu is not registered
    with Interaction Gateway API.", "flags": 64}}] even when a button is
    registered under that id, and a component that is not a select menu
    and whose id is not a registered button gets the same answer with
    "This button is not registered with Interaction Gateway API." even
    when a menu is registered under its id; no handler is called. *)
Theorem components_are_routed_by_type (self : GatewayClient)
    (request : Request) (interaction_payload : value)
    (d : list (string * value)) (ct : value) (cid : string) :
  verified self request interaction_payload ->
  getitem interaction_payload "type" = Returned (VInt 3) ->
  getitem interaction_payload "data" = Returned (VDict d) ->
  dict_lookup "component_type" d = Some ct ->
  dict_lookup "custom_id" d = Some (VStr cid) ->
  (in_ints ct [3; 4; 5; 6; 7; 8] = true ->
   (exists l, dict_lookup "values" d = Some (VList l)) ->
   menus self !! cid = None ->
   result (interaction self request)
   = Returned
       (VDict [("type"%string, VInt 4);
               ("data"%string,
                VDict [("content"%string,
                        VStr "This menu is not registered with Interaction Gateway API.");
                       ("flags"%string, VInt 64)])])
   ∧ calls (trace (interaction self request)) = [])
  ∧ (in_ints ct [3; 4; 5; 6; 7; 8] = false ->
     buttons self !! cid = None ->
     result (interaction self request)
     = Returned
         (VDict [("type"%string, VInt 4);
                 ("data"%string,
                  VDict [("content"%string,
                          VStr "This button is not registered with Interaction Gateway API.");
                         ("flags"%string, VInt 64)])])
     ∧ calls (trace (interaction self request)) = []).
Proof.
  intros Hv Ht Hd Hct Hcid.
  destruct (interaction_verified_calls invoke json_loads _ _ _ Hv)
    as [Hc Hr].
  rewrite Hc, Hr. split.
  - intros Hin [l Hvs] Hnone.
    rewrite (process_menu _ _ _ _ _ _ Ht Hd Hct Hin Hcid), Hnone.
    rewrite (select_value_list _ _ _ Hd Hvs).
    rewrite bind_emit, bind_lift_Returned. split; reflexivity.
  - intros Hin Hnone.
    rewrite (process_button _ _ _ _ _ _ Ht Hd Hct Hin Hcid), Hnone.
    rewrite bind_emit. split; reflexivity.
Qed.

(** ** Arguments of command handlers *)

Lemma iterate_truthy (o : value) (opts : list value) :
  truthy o = true -> iterate o = Returned opts -> opts ≠ [].
Proof.
  destruct o as [| | |s|l|l|d| | |]; simpl; try discriminate;
    intros Htr [= <-].
  - destruct s; [discriminate|]. discriminate.
  - destruct l; [discriminate|]. discriminate.
  - destruct l; [discriminate|]. discriminate.
  - destruct d; [discriminate|]. discriminate.
Qed.

(** X11. Option values never reach a command handler.  For a payload whose
    option values are not tuples (none decoded from JSON is), the argument
    list of lines 270-278 can only be built when ["options"] is absent or
    falsy, and it is then the interaction alone; a verified command
    request therefore calls its handler, if at all, as
    [handler(interaction)]. *)
Theorem command_handler_gets_interaction_only (self : GatewayClient)
    (request : Request) (interaction_payload : value)
    (d : list (string * value)) (name : string) (h : Handler) :
  verified self request interaction_payload ->
  getitem interaction_payload "type" = Returned (VInt 2) ->
  getitem interaction_payload "data" = Returned (VDict d) ->
  dict_lookup "name" d = Some (VStr name) ->
  commands self !! name = Some h ->
  (forall o opts opt v l,
     dict_lookup "options" d = Some o -> iterate o = Returned opts ->
     opt ∈ opts -> getitem opt "value" = Returned v -> v ≠ VTuple l) ->
  (forall args, command_arguments interaction_payload d = Returned args ->
     args = [Interaction interaction_payload]
     ∧ truthy (default VNone (dict_lookup "options" d)) = false)
  ∧ (forall h' args,
       (CommandHandler, h', args) ∈ calls (trace (interaction self request)) ->
       h' = h ∧ args = [Interaction interaction_payload]).
Proof.
  intros Hv Ht Hd Hn Hh Hjson.
  assert (Hargs : forall args,
             command_arguments interaction_payload d = Returned args ->
             args = [Interaction interaction_payload]
             ∧ truthy (default VNone (dict_lookup "options" d)) = false).
  { intros args. unfold command_arguments.
    destruct (truthy (default VNone (dict_lookup "options" d))) eqn:Htr.
    2:{ intros [= <-]. split; reflexivity. }
    destruct (dict_lookup "options" d) as [o|] eqn:Ho; [|discriminate].
    simpl in Htr. simpl of_option. rewrite outcome_bind_Returned.
    destruct (iterate o) as [opts|e] eqn:Hit; [|discriminate].
    rewrite outcome_bind_Returned.
    destruct opts as [|opt opts];
      [destruct (iterate_truthy _ _ Htr Hit eq_refl)|].
    cbn [collect_options].
    destruct (getitem opt "value") as [v|e] eqn:Hval; [|discriminate].
    rewrite outcome_bind_Returned.
    destruct v; try discriminate.
    destruct (Hjson o (opt :: opts) opt (VTuple l) l eq_refl Hit
                (list_elem_of_here _ _) Hval eq_refl). }
  split; [exact Hargs|].
  intros h' args Hin.
  destruct (interaction_verified_calls invoke json_loads _ _ _ Hv)
    as [Hc _].
  rewrite Hc, (process_command_registered _ _ _ _ _ _ Ht Hd Hn Hh) in Hin.
  rewrite bind_emit in Hin. unfold trace in Hin. cbn [fst] in Hin.
  change (calls (EPrintEvents (events self) :: ?t)) with (calls t) in Hin.
  pose proof (routed_calls invoke "interaction_receive" "command_receive"
                (events_or_empty self "interaction_receive")
                (events_or_empty self "command_receive")
                [Interaction interaction_payload] CommandHandler h
                (command_arguments interaction_payload d) _ eq_refl)
    as (Hsafe & _ & _).
  unfold trace in Hsafe.
  assert (Hlife : forall ev1 ev2 hs1 hs2 a,
             (CommandHandler, h', args)
             ∉ lifecycle_calls ev1 hs1 a ++ lifecycle_calls ev2 hs2 a).
  { intros ev1 ev2 hs1 hs2 a Hbad. unfold lifecycle_calls in Hbad.
    apply elem_of_app in Hbad as [Hbad|Hbad];
      apply list_elem_of_fmap in Hbad as (g & Hg & _); discriminate. }
  destruct Hsafe as [(args' & Ha & Hs)|Hs].
  - rewrite Hs, app_assoc in Hin. apply elem_of_app in Hin as [Hin|Hin].
    + destruct (Hlife _ _ _ _ _ Hin).
    + apply list_elem_of_singleton in Hin. injection Hin as -> ->.
      split; [reflexivity|]. exact (proj1 (Hargs _ Ha)).
  - destruct Hs as [rest Hrest]. exfalso.
    apply (Hlife "interaction_receive"%string "command_receive"%string
             (events_or_empty self "interaction_receive")
             (events_or_empty self "command_receive")
             [Interaction interaction_payload]).
    rewrite Hrest. apply elem_of_app. left. exact Hin.
Qed.

(** ** Registration of lifecycle handlers and the startup hook *)


(** X12. Registering a lifecycle handler touches the slot of its own event
    only: the slots of all other events, the three handler registries and
    the public key are left as they were. *)
Theorem on_touches_one_event (event : string) (f : Handler)
    (self : GatewayClient) :
  public_key (on event f self) = public_key self
  ∧ commands (on event f self) = commands self
  ∧ buttons (on event f self) = buttons self
  ∧ menus (on event f self) = menus self
  ∧ (forall other, other ≠ event ->
       events_get (on event f self) other = events_get self other).
Proof.
  unfold on.
  destruct (events_get self event) as [[|h t]|]; simpl;
    repeat split; intros other Hne; unfold events_get; simpl;
    rewrite ?lookup_insert_ne by congruence; reflexivity.
Qed.


(** X14. The startup hook prints its banner, then calls the handlers held
    for ["startup"] in order and without arguments; when one of them
    raises, the hook fails with that exception and the later ones are not
    called. *)
Theorem startup_event_fires_in_order (self : GatewayClient) :
  let banner :=
    EOutput (Setup.output
               "GatePoint API Dispatched, listening for interactions." None) in
  (all_return (events_or_empty self "startup") [] ->
   startup_event invoke self
   = (banner :: ((fun h => ECall (Lifecycle "startup") h [])
                   <$> events_or_empty self "startup"),
      Returned tt))
  ∧ (forall pre post h e,
       events_or_empty self "startup" = pre ++ h :: post ->
       all_return pre [] ->
       invoke h [] = Raised e ->
       startup_event invoke self
       = (banner :: ((fun h => ECall (Lifecycle "startup") h [])
                       <$> (pre ++ [h])),
          Raised e)).
Proof.
  intros banner. unfold startup_event. split.
  - intros Hall. rewrite bind_emit, (fire_all_return _ _ _ _ Hall).
    reflexivity.
  - intros pre post h e Hev Hpre Hh.
    rewrite bind_emit, Hev, (fire_failure _ _ _ _ _ _ Hpre Hh).
    reflexivity.
Qed.

End Endpoint.

(** ** Construction and the component decorators *)

Section Registration.
Context {Handler : Type}.
Variable invoke : Handler -> list value -> outcome value.
Context `{Signing} `{Setup.Components}.
Variable json_loads : list byte -> option value.

Local Abbreviation interaction := (interaction invoke json_loads).
Local Abbreviation verified := (verified json_loads).
Local Abbreviation all_return := (all_return invoke).
Local Abbreviation GatewayClient := (GatewayClient Handler).

(** X15. [Bot] is built exactly from a JSON object that has the keys
    ["id"], ["avatar"], ["username"] and ["discriminator"], whose values
    it copies; anything else raises ([TypeError] when the answer is not an
    object, [KeyError] for a missing key). *)
Theorem Bot_init_needs_four_keys (json : value) :
  (forall bot, Setup.Bot_init json = Returned bot <->
     exists p, json = VDict p
       ∧ dict_lookup "id" p = Some (Setup.id bot)
       ∧ dict_lookup "avatar" p = Some (Setup.avatar bot)
       ∧ dict_lookup "username" p = Some (Setup.username bot)
       ∧ dict_lookup "discriminator" p = Some (Setup.discriminator bot))
  ∧ (forall e, Setup.Bot_init json = Raised e ->
       match json with
       | VDict _ => e = KeyError
       | _ => e = TypeError
       end).
Proof.
  unfold Setup.Bot_init. split.
  - intros bot. split.
    + destruct json as [| | | | | |p| | |]; try discriminate. simpl getitem.
      destruct (dict_lookup "id" p) as [i|] eqn:Hi; [|discriminate].
      destruct (dict_lookup "avatar" p) as [a|] eqn:Ha; [|discriminate].
      destruct (dict_lookup "username" p) as [u|] eqn:Hu; [|discriminate].
      destruct (dict_lookup "discriminator" p) as [d|] eqn:Hd;
        [|discriminate].
      intros [= <-]. exists p. repeat split; assumption.
    + intros (p & -> & Hi & Ha & Hu & Hd). simpl getitem.
      rewrite Hi, Ha, Hu, Hd. destruct bot. reflexivity.
  - intros e. destruct json as [| | | | | |p| | |];
      try (intros [= <-]; reflexivity).
    simpl getitem.
    destruct (dict_lookup "id" p); [|intros [= <-]; reflexivity].
    destruct (dict_lookup "avatar" p); [|intros [= <-]; reflexivity].
    destruct (dict_lookup "username" p); [|intros [= <-]; reflexivity].
    destruct (dict_lookup "discriminator" p);
      [discriminate|intros [= <-]; reflexivity].
Qed.

(** X16. The [button] and [menu] decorators store the handler under the
    custom id of the object they build, replacing whatever was stored
    there (the last registration wins), and change nothing else: other
    ids of the same registry, the other registries and the public key are
    left alone.  In particular a button and a menu may share a custom
    id. *)
Theorem component_decorators_register (custom_id key : string) (f : Handler)
    (self : GatewayClient) :
  (Setup.ButtonInteraction custom_id = Returned key ->
   exists self',
     Setup.button custom_id f self = Returned self'
     ∧ buttons self' !! key = Some f
     ∧ (forall k, k ≠ key -> buttons self' !! k = buttons self !! k)
     ∧ menus self' = menus self ∧ commands self' = commands self
     ∧ events self' = events self ∧ public_key self' = public_key self)
  ∧ (Setup.MenuInteraction custom_id = Returned key ->
     exists self',
       Setup.menu custom_id f self = Returned self'
       ∧ menus self' !! key = Some f
       ∧ (forall k, k ≠ key -> menus self' !! k = menus self !! k)
       ∧ buttons self' = buttons self ∧ commands self' = commands self
       ∧ events self' = events self ∧ public_key self' = public_key self).
Proof.
  split; intros Hk; eexists;
    (split; [unfold Setup.button, Setup.menu; rewrite Hk; reflexivity|]);
    simpl; (split; [apply lookup_insert_eq|]);
    (split; [intros k Hne; apply lookup_insert_ne; congruence|]);
    repeat split.
Qed.

(** X17. Registration then dispatch.  Once [button] has stored [f], a
    verified component interaction that is not a select menu and carries
    the stored custom id calls [f] on the interaction alone, after the
    lifecycle handlers; once [menu] has stored [f], a verified select-menu
    interaction with that id and the values list [vs] calls [f] on the
    interaction and [vs].  The outcome of [f] is the outcome of the
    request. *)
Theorem registered_component_is_routed (custom_id key : string)
    (f : Handler) (self self' : GatewayClient) (request : Request)
    (interaction_payload : value) (d : list (string * value)) (ct : value) :
  verified self' request interaction_payload ->
  getitem interaction_payload "type" = Returned (VInt 3) ->
  getitem interaction_payload "data" = Returned (VDict d) ->
  dict_lookup "component_type" d = Some ct ->
  dict_lookup "custom_id" d = Some (VStr key) ->
  all_return (events_or_empty self' "interaction_receive")
    [Interaction interaction_payload] ->
  (Setup.ButtonInteraction custom_id = Returned key ->
   Setup.button custom_id f self = Returned self' ->
   in_ints ct [3; 4; 5; 6; 7; 8] = false ->
   all_return (events_or_empty self' "button_click")
     [Interaction interaction_payload] ->
   result (interaction self' request)
   = invoke f [Interaction interaction_payload]
   ∧ last (calls (trace (interaction self' request)))
     = Some (ButtonHandler, f, [Interaction interaction_payload]))
  ∧ (forall vs,
     Setup.MenuInteraction custom_id = Returned key ->
     Setup.menu custom_id f self = Returned self' ->
     in_ints ct [3; 4; 5; 6; 7; 8] = true ->
     dict_lookup "values" d = Some (VList vs) ->
     all_return (events_or_empty self' "menu_select")
       [Interaction interaction_payload] ->
     result (interaction self' request)
     = invoke f [Interaction interaction_payload; VList vs]
     ∧ last (calls (trace (interaction self' request)))
       = Some (MenuHandler, f, [Interaction interaction_payload; VList vs])).
Proof.
  intros Hv Ht Hd Hct Hcid A1.
  destruct (interaction_verified_calls invoke json_loads _ _ _ Hv)
    as [Hc Hr].
  rewrite Hc, Hr. split.
  - intros Hk Hreg Hin A2.
    assert (Hf : buttons self' !! key = Some f).
    { unfold Setup.button in Hreg. rewrite Hk in Hreg.
      injection Hreg as <-. apply lookup_insert_eq. }
    rewrite (process_button _ _ _ _ _ _ Ht Hd Hct Hin Hcid), Hf.
    rewrite bind_emit. unfold trace, result. cbn [fst snd].
    change (calls (EPrint (VDict d) :: ?t)) with (calls t).
    pose proof (routed_calls invoke "interaction_receive" "button_click"
                  (events_or_empty self' "interaction_receive")
                  (events_or_empty self' "button_click")
                  [Interaction interaction_payload] ButtonHandler f
                  (Returned [Interaction interaction_payload])
                  _ eq_refl) as (_ & Hlive & _).
    destruct (Hlive A1 A2 _ eq_refl) as [Hcalls Hres].
    unfold trace, result in Hcalls, Hres.
    rewrite Hcalls, Hres, app_assoc, last_snoc. split; reflexivity.
  - intros vs Hk Hreg Hin Hvs A2.
    assert (Hf : menus self' !! key = Some f).
    { unfold Setup.menu in Hreg. rewrite Hk in Hreg.
      injection Hreg as <-. apply lookup_insert_eq. }
    rewrite (process_menu _ _ _ _ _ _ Ht Hd Hct Hin Hcid), Hf, Hvs.
    rewrite (select_value_list _ _ _ Hd Hvs).
    rewrite bind_emit, bind_lift_Returned. simpl of_option.
    rewrite outcome_bind_Returned.
    unfold trace, result. cbn [fst snd].
    change (calls (EPrint (VDict d) :: ?t)) with (calls t).
    pose proof (routed_calls invoke "interaction_receive" "menu_select"
                  (events_or_empty self' "interaction_receive")
                  (events_or_empty self' "menu_select")
                  [Interaction interaction_payload] MenuHandler f
                  (Returned [Interaction interaction_payload; VList vs])
                  _ eq_refl) as (_ & Hlive & _).
    destruct (Hlive A1 A2 _ eq_refl) as [Hcalls Hres].
    unfold trace, result in Hcalls, Hres.
    rewrite Hcalls, Hres, app_assoc, last_snoc. split; reflexivity.
Qed.

Lemma process_command_unregistered (self : GatewayClient)
    (interaction_payload : value) (d : list (string * value))
    (name : string) :
  getitem interaction_payload "type" = Returned (VInt 2) ->
  getitem interaction_payload "data" = Returned (VDict d) ->
  dict_lookup "name" d = Some (VStr name) ->
  commands self !! name = None ->
  process_request invoke self interaction_payload
  = mret (default_response
            "This command is not registered with Interaction Gateway API.").
Proof.
  intros Ht Hd Hn Hnone. unfold process_request.
  rewrite Ht, bind_lift_Returned.
  change (eq_int (VInt 2) 1) with false. cbv iota.
  rewrite bind_lift_Returned.
  change (eq_int (VInt 2) 2) with true. cbv iota.
  rewrite !(data_field_dict _ _ _ Hd), Hn. simpl of_option.
  rewrite bind_lift_Returned, (contains_unregistered _ _ Hnone).
  rewrite bind_lift_Returned. reflexivity.
Qed.

(** X18. Construction.  Any status other than 200 from the token check
    makes the constructor raise [ValueError], whatever the answer holds.
    A client that was constructed has the given public key, a bot built
    from the answer and four empty registries, so it answers every
    verified command request with [{"type": 4, "data": {"content": "This
    command is not registered with Interaction Gateway API.", "flags":
    64}}] without calling anything. *)
Theorem fresh_client_routes_nothing (key : string) (status : Z)
    (json : outcome value) :
  (status ≠ 200 ->
   Setup.GatewayClient_init (Handler:=Handler) key status json
   = Raised ValueError)
  ∧ (forall self bot,
     Setup.GatewayClient_init key status json = Returned (self, bot) ->
     status = 200
     ∧ (exists j, json = Returned j ∧ Setup.Bot_init j = Returned bot)
     ∧ public_key self = key
     ∧ buttons self = ∅ ∧ commands self = ∅
     ∧ events self = ∅ ∧ menus self = ∅
     ∧ (forall request interaction_payload d name,
          verified self request interaction_payload ->
          getitem interaction_payload "type" = Returned (VInt 2) ->
          getitem interaction_payload "data" = Returned (VDict d) ->
          dict_lookup "name" d = Some (VStr name) ->
          result (interaction self request)
          = Returned
              (VDict [("type"%string, VInt 4);
                      ("data"%string,
                       VDict [("content"%string,
                               VStr "This command is not registered with Interaction Gateway API.");
                              ("flags"%string, VInt 64)])])
          ∧ calls (trace (interaction self request)) = [])).
Proof.
  unfold Setup.GatewayClient_init. split.
  - intros Hne. rewrite (proj2 (Z.eqb_neq status 200) Hne). reflexivity.
  - intros self bot. destruct (Z.eqb_spec status 200) as [->|Hne];
      [|discriminate].
    destruct json as [j|e]; [|discriminate].
    rewrite outcome_bind_Returned.
    destruct (Setup.Bot_init j) as [b|e] eqn:Hb; [|discriminate].
    rewrite outcome_bind_Returned. intros [= <- <-].
    split; [reflexivity|]. split; [eauto|]. split; [reflexivity|].
    do 4 (split; [reflexivity|]).
    intros request interaction_payload d name Hv Ht Hd Hn.
    destruct (interaction_verified_calls invoke json_loads _ _ _ Hv)
      as [Hc Hr].
    rewrite Hc, Hr.
    rewrite (process_command_unregistered _ _ _ _ Ht Hd Hn
               (lookup_empty name)).
    split; reflexivity.
Qed.

End Registration.
End Extras.

(** ** The further properties on the sample deployment *)

#[local] Existing Instance Sample2.components.

Lemma unverified_request_reaches_nothing_witness :
  (EJson ∉ trace (Sample.run Sample.client (Sample.forged "ping")))
  ∧ calls (trace (Sample.run Sample.client (Sample.forged "ping"))) = [].
Proof.
  destruct (Extras.unverified_request_reaches_nothing
              Sample.invoke Sample.json_loads Sample.client
              (Sample.forged "ping")) as (_ & Hjson & Hcalls).
  - vm_compute. discriminate.
  - split; [exact Hjson|exact Hcalls].
Defined.

Lemma malformed_signature_is_a_value_error_witness :
  Sample.run Sample.client (Sample2.unhexed "ping")
  = ([EBody], Raised ValueError).
Proof.
  apply (Extras.malformed_signature_is_a_value_error
           Sample.invoke Sample.json_loads Sample.client
           (Sample2.unhexed "ping") Sample.key
           "not hex at all" Sample.timestamp
           (default [] (Codec.utf8_decode (Codec.bytes_of_string "ping")))
           (sample_key_ready _ eq_refl));
    first [by_run | discriminate].
Defined.

Lemma unusable_key_fails_every_request_witness :
  Sample.run Sample2.keyless_client (Sample.unstamped "ping")
  = ([], Raised ValueError)
  ∧ Sample.run Sample2.keyless_client (Sample.signed "ping")
    = ([], Raised ValueError).
Proof.
  split;
    apply (Extras.unusable_key_fails_every_request
             Sample.invoke Sample.json_loads Sample2.keyless_client);
    exact I.
Defined.

Lemma other_verification_errors_propagate_witness :
  result (Sample.run Sample.client (Sample2.short_signed "ping"))
  = Raised ValueError.
Proof.
  destruct (Extras.other_verification_errors_propagate
              Sample.invoke Sample.json_loads Sample.client
              (Sample2.short_signed "ping") Sample.key
              (Sample.hex (replicate 63 x00)) Sample.timestamp
              (default [] (Codec.utf8_decode (Codec.bytes_of_string "ping")))
              (replicate 63 x00) ValueError
              (sample_key_ready _ eq_refl)
              ltac:(by_run) ltac:(by_run)
              ltac:(vm_compute; discriminate) ltac:(discriminate)
              ltac:(by_run) ltac:(by_run)
              ltac:(intros stamp _; reflexivity) ltac:(discriminate))
    as (stamp & _ & Hrun).
  unfold Sample.run. rewrite Hrun. reflexivity.
Defined.

Lemma undecodable_json_raises_witness :
  result (Sample.run Sample.client (Sample.signed "garbage"))
  = Raised JSONDecodeError
  ∧ calls (trace (Sample.run Sample.client (Sample.signed "garbage"))) = [].
Proof.
  destruct (Extras.undecodable_json_raises
              Sample.invoke Sample.json_loads Sample.client
              (Sample.signed "garbage")) as [Hrun Hcalls].
  - by_run.
  - by_run.
  - unfold Sample.run. rewrite Hrun. split; [reflexivity|].
    rewrite <- Hrun. exact Hcalls.
Defined.

Lemma sample2_verified (self : GatewayClient string) (raw : string)
    (interaction_payload : value) :
  result (verify_request self (Sample.signed raw)) = Returned None ->
  Sample2.json_loads (Codec.bytes_of_string raw) = Some interaction_payload ->
  verified Sample2.json_loads self (Sample.signed raw) interaction_payload.
Proof. intros Hv Hj. split; assumption. Defined.

Lemma payload_without_type_raises_witness :
  result (Sample2.run Sample.client (Sample.signed "no-type"))
  = Raised KeyError.
Proof.
  assert (Hv : verified Sample2.json_loads Sample.client
                 (Sample.signed "no-type") Sample2.no_type_payload)
    by (apply sample2_verified; by_run).
  exact (proj1 (Extras.payload_without_type_raises
                  Sample.invoke Sample2.json_loads Sample.client
                  (Sample.signed "no-type") Sample2.no_type_payload
                  Hv eq_refl)).
Defined.

Lemma non_numeric_type_raises_witness :
  result (Sample2.run Sample.client (Sample.signed "text-type"))
  = Raised TypeError.
Proof.
  assert (Hv : verified Sample2.json_loads Sample.client
                 (Sample.signed "text-type") Sample2.text_type_payload)
    by (apply sample2_verified; by_run).
  exact (proj1 (Extras.non_numeric_type_raises
                  Sample.invoke Sample2.json_loads Sample.client
                  (Sample.signed "text-type") Sample2.text_type_payload
                  (VStr "2") Hv eq_refl eq_refl)).
Defined.




Lemma lifecycle_failure_aborts_command_witness :
  result (Sample.run Sample2.failing_client (Sample.signed "cmd"))
  = Raised (OtherError "RuntimeError")
  ∧ calls (trace (Sample.run Sample2.failing_client (Sample.signed "cmd")))
    = [(Lifecycle "interaction_receive", "log_any"%string,
        [Interaction (Sample.command_payload [])]);
       (Lifecycle "interaction_receive", "boom"%string,
        [Interaction (Sample.command_payload [])])].
Proof.
  assert (Hv : verified Sample.json_loads Sample2.failing_client
                 (Sample.signed "cmd") (Sample.command_payload []))
    by (split; by_run).
  assert (Hh : commands Sample2.failing_client !! "greet"%string
               = Some "on_greet"%string) by by_run.
  assert (Hev : events_or_empty Sample2.failing_client "interaction_receive"
                = ["log_any"%string] ++ "boom"%string :: ["late"%string])
    by by_run.
  destruct (Extras.lifecycle_failure_aborts_command
              Sample.invoke Sample.json_loads Sample2.failing_client
              (Sample.signed "cmd") (Sample.command_payload [])
              (Sample.command_data []) "greet" "on_greet" "boom"
              ["log_any"%string] ["late"%string] (OtherError "RuntimeError")
              Hv eq_refl eq_refl eq_refl Hh Hev
              ltac:(repeat constructor; eexists; reflexivity) eq_refl)
    as [Hres Hcalls].
  split; [exact Hres|exact Hcalls].
Defined.

Lemma components_are_routed_by_type_witness :
  buttons Sample.client !! "button1"%string = Some "on_button"%string
  ∧ result (Sample2.run Sample.client (Sample.signed "menu-as-button"))
    = Returned
        (VDict [("type"%string, VInt 4);
                ("data"%string,
                 VDict [("content"%string,
                         VStr "This menu is not registered with Interaction Gateway API.");
                        ("flags"%string, VInt 64)])])
  ∧ menus Sample.client !! "menu1"%string = Some "on_menu"%string
  ∧ result (Sample2.run Sample.client (Sample.signed "button-as-menu"))
    = Returned
        (VDict [("type"%string, VInt 4);
                ("data"%string,
                 VDict [("content"%string,
                         VStr "This button is not registered with Interaction Gateway API.");
                        ("flags"%string, VInt 64)])]).
Proof.
  assert (Hv : verified Sample2.json_loads Sample.client
                 (Sample.signed "menu-as-button")
                 Sample2.menu_as_button_payload)
    by (apply sample2_verified; by_run).
  assert (Hv' : verified Sample2.json_loads Sample.client
                  (Sample.signed "button-as-menu")
                  Sample2.button_as_menu_payload)
    by (apply sample2_verified; by_run).
  destruct (Extras.components_are_routed_by_type
              Sample.invoke Sample2.json_loads Sample.client
              (Sample.signed "menu-as-button") Sample2.menu_as_button_payload
              Sample2.menu_as_button_data (VInt 3) "button1"
              Hv eq_refl eq_refl eq_refl eq_refl) as [Hmenu _].
  destruct (Extras.components_are_routed_by_type
              Sample.invoke Sample2.json_loads Sample.client
              (Sample.signed "button-as-menu") Sample2.button_as_menu_payload
              Sample2.button_as_menu_data (VInt 2) "menu1"
              Hv' eq_refl eq_refl eq_refl eq_refl) as [_ Hbutton].
  split; [by_run|]. split.
  - exact (proj1 (Hmenu eq_refl (ex_intro _ [] eq_refl) ltac:(by_run))).
  - split; [by_run|].
    exact (proj1 (Hbutton eq_refl ltac:(by_run))).
Defined.

Lemma command_handler_gets_interaction_only_witness :
  commands Sample.client !! "greet"%string = Some "on_greet"%string
  ∧ (CommandHandler, "on_greet"%string,
     [Interaction (Sample.command_payload Sample.ab_options);
      VStr "a"; VStr "b"])
    ∉ calls (trace (Sample.run Sample.client (Sample.signed "cmd-ab"))).
Proof.
  assert (Hv : verified Sample.json_loads Sample.client
                 (Sample.signed "cmd-ab")
                 (Sample.command_payload Sample.ab_options))
    by (apply sample_verified; by_run).
  assert (Hh : commands Sample.client !! "greet"%string
               = Some "on_greet"%string) by by_run.
  split; [exact Hh|]. intros Hin.
  assert (Hjson : forall o opts opt v l,
             dict_lookup "options" (Sample.command_data Sample.ab_options)
             = Some o ->
             iterate o = Returned opts -> opt ∈ opts ->
             getitem opt "value" = Returned v -> v ≠ VTuple l).
  { intros o opts opt v l Ho Hit Hopt Hval.
    injection Ho as <-. injection Hit as <-.
    apply elem_of_cons in Hopt as [->|Hopt];
      [injection Hval as <-; discriminate|].
    apply list_elem_of_singleton in Hopt as ->.
    injection Hval as <-. discriminate. }
  destruct (proj2 (Extras.command_handler_gets_interaction_only
                     Sample.invoke Sample.json_loads Sample.client
                     (Sample.signed "cmd-ab")
                     (Sample.command_payload Sample.ab_options)
                     (Sample.command_data Sample.ab_options)
                     "greet" "on_greet"
                     Hv eq_refl eq_refl eq_refl Hh Hjson) _ _ Hin)
    as [_ Hargs].
  discriminate Hargs.
Defined.


Lemma startup_event_fires_in_order_witness :
  startup_event Sample.invoke Sample2.failing_client
  = ([EOutput "INFO: GatePoint API Dispatched, listening for interactions.";
      ECall (Lifecycle "startup") "warm_up"%string [];
      ECall (Lifecycle "startup") "boom"%string []],
     Raised (OtherError "RuntimeError")).
Proof.
  destruct (Extras.startup_event_fires_in_order
              Sample.invoke Sample2.failing_client) as [_ Hfail].
  assert (Hev : events_or_empty Sample2.failing_client "startup"
                = ["warm_up"%string] ++ "boom"%string :: ["late"%string])
    by by_run.
  rewrite (Hfail ["warm_up"%string] ["late"%string] "boom"%string
             (OtherError "RuntimeError") Hev
             ltac:(repeat constructor; eexists; reflexivity) eq_refl).
  reflexivity.
Defined.

Lemma Bot_init_needs_four_keys_witness :
  Setup.Bot_init Sample2.me
  = Returned {| Setup.id := VStr "42"; Setup.avatar := VNone;
                Setup.username := VStr "gate";
                Setup.discriminator := VStr "0001" |}
  ∧ Setup.Bot_init (VDict [("id"%string, VStr "42")]) = Raised KeyError.
Proof.
  split.
  - apply (proj1 (Extras.Bot_init_needs_four_keys Sample2.me)).
    eexists. repeat split; reflexivity.
  - destruct (Setup.Bot_init (VDict [("id"%string, VStr "42")]))
      as [b|e] eqn:Hb; [discriminate|].
    rewrite (proj2 (Extras.Bot_init_needs_four_keys _) e Hb). reflexivity.
Defined.

Lemma component_decorators_register_witness :
  exists self',
    Setup.button "menu1" "on_button2"%string Sample.client = Returned self'
    ∧ buttons self' !! "menu1"%string = Some "on_button2"%string
    ∧ menus self' !! "menu1"%string = Some "on_menu"%string.
Proof.
  destruct (Extras.component_decorators_register
              "menu1" "menu1" "on_button2"%string Sample.client)
    as [Hbutton _].
  destruct (Hbutton eq_refl) as (self' & Hreg & Hf & _ & Hmenus & _).
  exists self'. split; [exact Hreg|]. split; [exact Hf|].
  rewrite Hmenus. by_run.
Defined.

Lemma registered_component_is_routed_witness :
  exists self',
    Setup.button "fresh" "on_fresh"%string Sample.client = Returned self'
    ∧ result (Sample2.run self' (Sample.signed "fresh-button"))
      = Sample.invoke "on_fresh" [Interaction Sample2.fresh_button_payload].
Proof.
  destruct (Extras.component_decorators_register
              "fresh" "fresh" "on_fresh"%string Sample.client)
    as [Hbutton _].
  destruct (Hbutton eq_refl) as (self' & Hreg & _ & _ & _ & _ & Hev & Hpk).
  exists self'. split; [exact Hreg|].
  assert (Hself : self' = {| public_key := public_key Sample.client;
                             buttons := <["fresh"%string := "on_fresh"%string]>
                                          (buttons Sample.client);
                             commands := commands Sample.client;
                             events := events Sample.client;
                             menus := menus Sample.client |})
    by (injection Hreg as <-; reflexivity).
  assert (Hv : verified Sample2.json_loads self' (Sample.signed "fresh-button")
                 Sample2.fresh_button_payload)
    by (rewrite Hself; split; by_run).
  destruct (Extras.registered_component_is_routed
              Sample.invoke Sample2.json_loads "fresh" "fresh"
              "on_fresh"%string Sample.client self'
              (Sample.signed "fresh-button") Sample2.fresh_button_payload
              Sample2.fresh_button_data (VInt 2)
              Hv eq_refl eq_refl eq_refl eq_refl
              ltac:(rewrite Hself; returns_all)) as [Hrouted _].
  exact (proj1 (Hrouted eq_refl Hreg eq_refl
                  ltac:(rewrite Hself; returns_all))).
Defined.

Lemma fresh_client_routes_nothing_witness :
  Setup.GatewayClient_init (Handler:=string)
    (public_key Sample.client) 401 (Returned Sample2.me)
  = Raised ValueError
  ∧ exists self bot,
      Setup.GatewayClient_init (public_key Sample.client) 200
        (Returned Sample2.me) = Returned (self, bot)
      ∧ buttons self = ∅ ∧ commands self = ∅
      ∧ events self = ∅ ∧ menus self = ∅
      ∧ result (Sample.run self (Sample.signed "cmd"))
        = Returned
            (VDict [("type"%string, VInt 4);
                    ("data"%string,
                     VDict [("content"%string,
                             VStr "This command is not registered with Interaction Gateway API.");
                            ("flags"%string, VInt 64)])]).
Proof.
  split.
  - apply (proj1 (Extras.fresh_client_routes_nothing
                    Sample.invoke Sample.json_loads
                    (public_key Sample.client) 401 (Returned Sample2.me))).
    lia.
  - destruct (Setup.GatewayClient_init (Handler:=string)
                (public_key Sample.client) 200 (Returned Sample2.me))
      as [[self bot]|e] eqn:Hinit; [|vm_compute in Hinit; discriminate].
    exists self, bot. split; [reflexivity|].
    destruct (proj2 (Extras.fresh_client_routes_nothing
                       Sample.invoke Sample.json_loads
                       (public_key Sample.client) 200 (Returned Sample2.me))
                self bot Hinit)
      as (_ & _ & Hpk & Hb & Hc & He & Hm & Hroute).
    assert (Hself : self = Sample.empty_client)
      by (vm_compute in Hinit; injection Hinit as <- _; reflexivity).
    assert (Hv : verified Sample.json_loads self (Sample.signed "cmd")
                   (Sample.command_payload []))
      by (rewrite Hself; split; by_run).
    do 4 (split; [assumption|]).
    exact (proj1 (Hroute (Sample.signed "cmd") (Sample.command_payload [])
                    (Sample.command_data []) "greet"
                    Hv eq_refl eq_refl eq_refl)).
Defined.
